(** * Registry and message routing of the socket.io text chat (main.py)

    The server keeps two module-level dictionaries, [users_by_sid] and
    [users_by_uuid], and four event handlers ([connect], [disconnect],
    [register], [message]) that read and update them and answer through
    [sio.emit].  The handlers are embedded as functions in a small
    state-and-exception monad over the two dictionaries and the list of
    emitted events.

    Conventions of the embedding:
    - a Python [str] is a Rocq [string], one [ascii] per code point (code
      points 0..255);
    - a payload is a JSON value ([pyval]); JSON numbers are integers here;
    - [print] calls and the [environ]/[auth] arguments of [connect] are not
      part of the state and are left out;
    - every handler touches the dictionaries before its first [await]
      and never after it, so a handler is one atomic step on the registry. *)

From Stdlib Require Import ZArith NArith Ascii String List Bool Lia.
From stdpp Require Import base option gmap strings pretty.

Local Open Scope string_scope.
Local Open Scope Z_scope.

(** ** Python values, exceptions *)

Inductive exn : Type :=
| ValueError
| TypeError
| AttributeError
| KeyError.

Inductive except (A : Type) : Type :=
| Ok (a : A)
| Raise (e : exn).
Arguments Ok {A} a.
Arguments Raise {A} e.

#[warnings="-register-all"]
Inductive pyval : Type :=
| VNone
| VBool (b : bool)
| VInt (z : Z)
| VStr (s : string)
| VList (l : list pyval)
| VDict (kvs : list (string * pyval)).

(** The builtins and the standard-library calls of the handlers, with
    the behaviour of CPython: truth values, [in], subscription, the str
    methods and [int(s, 16)] behind [uuid.UUID], and [uuid.UUID] itself
    (Lib/uuid.py, the [hex] branch of [UUID.__init__]). *)
Module Py.

(** Truth value of an object ([not data], [if u:]). *)
Definition str_truthy (s : string) : bool :=
  match s with EmptyString => false | String _ _ => true end.

Definition truthy (v : pyval) : bool :=
  match v with
  | VNone => false
  | VBool b => b
  | VInt z => negb (z =? 0)
  | VStr s => str_truthy s
  | VList l => match l with nil => false | _ => true end
  | VDict kvs => match kvs with nil => false | _ => true end
  end.

(** [old in s] for two strings: [old] occurs in [s] as a substring. *)
Fixpoint substring_of (old s : string) : bool :=
  String.prefix old s ||
  match s with
  | EmptyString => false
  | String _ s' => substring_of old s'
  end.

(** [k == v] for a string [k]: only an equal [str] compares equal. *)
Definition eq_str (k : string) (v : pyval) : bool :=
  match v with VStr s => String.eqb k s | _ => false end.

(** Dictionary lookup by key in a JSON object (keys are unique in a
    Python dict, so the first match is the only one). *)
Fixpoint assoc (k : string) (kvs : list (string * pyval)) : option pyval :=
  match kvs with
  | nil => None
  | (k', v) :: rest => if String.eqb k k' then Some v else assoc k rest
  end.

(** [k in data]: membership test, by the type of [data]. *)
Definition contains (data : pyval) (k : string) : except bool :=
  match data with
  | VDict kvs => Ok (match assoc k kvs with Some _ => true | None => false end)
  | VList l => Ok (existsb (eq_str k) l)
  | VStr s => Ok (substring_of k s)
  | VNone | VBool _ | VInt _ => Raise TypeError
  end.

(** [data[k]] with a string key. *)
Definition getitem (data : pyval) (k : string) : except pyval :=
  match data with
  | VDict kvs => match assoc k kvs with Some v => Ok v | None => Raise KeyError end
  | _ => Raise TypeError
  end.

(** *** str methods used by uuid.UUID *)

(** [s.replace(old, '')] for a non-empty [old]: the occurrences of [old]
    are dropped from left to right, without overlap.  [skip] counts the
    characters of the occurrence being dropped. *)
Fixpoint remove_all_from (old : string) (skip : nat) (s : string) : string :=
  match s with
  | EmptyString => EmptyString
  | String c s' =>
      match skip with
      | S k => remove_all_from old k s'
      | O =>
          if String.prefix old s
          then remove_all_from old (pred (String.length old)) s'
          else String c (remove_all_from old O s')
      end
  end.

Definition remove_all (old s : string) : string := remove_all_from old O s.

Definition char_in (c : ascii) (chars : string) : bool :=
  existsb (Ascii.eqb c) (list_ascii_of_string chars).

Fixpoint lstrip (chars s : string) : string :=
  match s with
  | EmptyString => EmptyString
  | String c s' => if char_in c chars then lstrip chars s' else s
  end.

Fixpoint rstrip (chars s : string) : string :=
  match s with
  | EmptyString => EmptyString
  | String c s' =>
      match rstrip chars s' with
      | EmptyString => if char_in c chars then EmptyString else String c EmptyString
      | r => String c r
      end
  end.

(** [s.strip(chars)] *)
Definition strip (chars s : string) : string := rstrip chars (lstrip chars s).

(** *** int(s, 16) *)

(** White space skipped around the literal: the ASCII white space, and
    NEL and NBSP, which the conversion of a str maps to a blank. *)
Definition is_space (c : ascii) : bool :=
  let n := N_of_ascii c in
  (((9 <=? n) && (n <=? 13)) || (n =? 32) || (n =? 133) || (n =? 160))%N.

(** Value of a digit character; 37 for a character that is no digit. *)
Definition digit_value (c : ascii) : N :=
  let n := N_of_ascii c in
  (if (48 <=? n) && (n <=? 57) then n - 48
   else if (97 <=? n) && (n <=? 122) then n - 87
   else if (65 <=? n) && (n <=? 90) then n - 55
   else 37)%N.

Fixpoint skip_spaces (s : string) : string :=
  match s with
  | String c s' => if is_space c then skip_spaces s' else s
  | EmptyString => EmptyString
  end.

(** The digit loop: digits below [base], single underscores between
    them.  [prev_us] tells that the previous character was an
    underscore.  Gives the value read and the rest of the string, or
    [None] on a doubled or trailing underscore. *)
Fixpoint scan_digits (base : N) (prev_us : bool) (acc : Z) (s : string)
  : option (Z * string) :=
  match s with
  | EmptyString => if prev_us then None else Some (acc, EmptyString)
  | String c s' =>
      if Ascii.eqb c "_"%char then
        if prev_us then None else scan_digits base true acc s'
      else if (digit_value c <? base)%N then
        scan_digits base false (acc * Z.of_N base + Z.of_N (digit_value c)) s'
      else if prev_us then None else Some (acc, s)
  end.

(** The literal: blanks, an optional sign, an optional 0x prefix (with
    one underscore allowed after it), the digits, blanks.  [None] is
    the parser's error exit. *)
Definition parse_int16 (s : string) : option Z :=
  let s1 := skip_spaces s in
  let '(sign, s2) :=
    match s1 with
    | String c r =>
        if Ascii.eqb c "+"%char then (1, r)
        else if Ascii.eqb c "-"%char then (-1, r)
        else (1, s1)
    | EmptyString => (1, s1)
    end in
  let s3 :=
    match s2 with
    | String c0 (String x r) =>
        if Ascii.eqb c0 "0"%char && (Ascii.eqb x "x"%char || Ascii.eqb x "X"%char)
        then match r with
             | String c1 r' => if Ascii.eqb c1 "_"%char then r' else r
             | EmptyString => r
             end
        else s2
    | _ => s2
    end in
  if String.prefix "_" s3 then None
  else
    match scan_digits 16 false 0 s3 with
    | None => None
    | Some (v, rest) =>
        if (String.length rest =? String.length s3)%nat then None
        else match skip_spaces rest with
             | EmptyString => Some (sign * v)
             | String _ _ => None
             end
    end.

(** An invalid literal raises ValueError. *)
Definition int16 (s : string) : except Z :=
  match parse_int16 s with
  | Some v => Ok v
  | None => Raise ValueError
  end.

(** *** uuid.UUID(hex)

    The constructor called with one positional argument: [None] is
    refused with TypeError (no argument given); any other value is used
    as a str, so a value without [replace] raises AttributeError.  The
    result is the 128-bit integer of the UUID. *)
Definition UUID_of_hex (hex : string) : except Z :=
  let hex := remove_all "uuid:" (remove_all "urn:" hex) in
  let hex := remove_all "-" (strip "{}" hex) in
  if negb (String.length hex =? 32)%nat then Raise ValueError
  else match int16 hex with
       | Raise e => Raise e
       | Ok int =>
           if negb ((0 <=? int) && (int <? Z.shiftl 1 128)) then Raise ValueError
           else Ok int
       end.

Definition UUID (hex : pyval) : except Z :=
  match hex with
  | VNone => Raise TypeError
  | VStr s => UUID_of_hex s
  | VBool _ | VInt _ | VList _ | VDict _ => Raise AttributeError
  end.

End Py.

(** A hashable scalar, as a dictionary key: [dict.get] hashes its argument
    first and raises TypeError for a list or a dict. *)
Inductive pykey : Type :=
| KNone
| KBool (b : bool)
| KInt (z : Z)
| KStr (s : string).

Module PyKey.

Definition hash (v : pyval) : except pykey :=
  match v with
  | VNone => Ok KNone
  | VBool b => Ok (KBool b)
  | VInt z => Ok (KInt z)
  | VStr s => Ok (KStr s)
  | VList _ | VDict _ => Raise TypeError
  end.

(** [f"{k}"] *)
Definition format (k : pykey) : string :=
  match k with
  | KNone => "None"
  | KBool true => "True"
  | KBool false => "False"
  | KInt z => pretty z
  | KStr s => s
  end.

(** Lookup in a dictionary whose keys are all of type str: no other
    scalar compares equal to a str. *)
Definition lookup (m : gmap string string) (k : pykey) : option string :=
  match k with
  | KStr s => m !! s
  | _ => None
  end.

End PyKey.

(** ** The registry and the handler monad *)

(** users_by_sid: sid -> user uuid; users_by_uuid: uuid -> sid. *)
Record registry : Type := Registry {
  users_by_sid : gmap string string;
  users_by_uuid : gmap string string
}.

Definition empty_registry : registry :=
  {| users_by_sid := ∅; users_by_uuid := ∅ |}.

(** One call [sio.emit(event, payload, to=to)]. *)
Record emission : Type := Emit {
  event : string;
  payload : pyval;
  to : string
}.

(** A handler body: it reads and updates the registry, appends to the
    emitted events, and returns or raises.  The updates and emits made
    before an exception stay. *)
Definition M (A : Type) : Type :=
  registry -> except A * registry * list emission.

Definition ret {A} (a : A) : M A := fun st => (Ok a, st, nil).

Definition raise {A} (e : exn) : M A := fun st => (Raise e, st, nil).

Definition bind {A B} (m : M A) (k : A -> M B) : M B :=
  fun st =>
    match m st with
    | (Ok a, st1, out1) =>
        let '(r, st2, out2) := k a st1 in (r, st2, (out1 ++ out2)%list)
    | (Raise e, st1, out1) => (Raise e, st1, out1)
    end.

Notation "x <- m ;; k" := (bind m (fun x => k))
  (at level 100, m at next level, right associativity).
Notation "m ;; k" := (bind m (fun _ => k))
  (at level 100, right associativity).

Definition lift {A} (x : except A) : M A :=
  match x with Ok a => ret a | Raise e => raise e end.

Definition emit (ev : string) (data : pyval) (to : string) : M unit :=
  fun st => (Ok tt, st, Emit ev data to :: nil).

(** users_by_sid.pop(sid, None) *)
Definition pop_by_sid (sid : string) : M (option string) :=
  fun st =>
    (Ok (users_by_sid st !! sid),
     {| users_by_sid := delete sid (users_by_sid st);
        users_by_uuid := users_by_uuid st |}, nil).

(** users_by_uuid.pop(u, None) *)
Definition pop_by_uuid (u : string) : M (option string) :=
  fun st =>
    (Ok (users_by_uuid st !! u),
     {| users_by_sid := users_by_sid st;
        users_by_uuid := delete u (users_by_uuid st) |}, nil).

(** users_by_sid[sid] = u *)
Definition set_by_sid (sid u : string) : M unit :=
  fun st =>
    (Ok tt,
     {| users_by_sid := <[sid := u]> (users_by_sid st);
        users_by_uuid := users_by_uuid st |}, nil).

(** users_by_uuid[u] = sid *)
Definition set_by_uuid (u sid : string) : M unit :=
  fun st =>
    (Ok tt,
     {| users_by_sid := users_by_sid st;
        users_by_uuid := <[u := sid]> (users_by_uuid st) |}, nil).

(** users_by_sid.get(sid) *)
Definition get_by_sid (sid : string) : M (option string) :=
  fun st => (Ok (users_by_sid st !! sid), st, nil).

(** users_by_uuid.get(k), after [k] has been hashed *)
Definition get_by_uuid (k : pykey) : M (option string) :=
  fun st => (Ok (PyKey.lookup (users_by_uuid st) k), st, nil).

(** The payload of an error event. *)
Definition message_dict (msg : string) : pyval :=
  VDict (("message", VStr msg) :: nil).

(** ** The event handlers *)

Definition connect (sid : string) : M unit := ret tt.

Definition disconnect (sid : string) : M unit :=
  u <- pop_by_sid sid ;;
  match u with
  | Some u' =>
      if Py.str_truthy u' then (pop_by_uuid u' ;; ret tt) else ret tt
  | None => ret tt
  end.

(** [not data or key not in data] *)
Definition lacks (data : pyval) (key : string) : M bool :=
  if negb (Py.truthy data) then ret true
  else (b <- lift (Py.contains data key) ;; ret (negb b)).

Definition register (sid : string) (data : pyval) : M unit :=
  missing <- lacks data "uuid" ;;
  if missing : bool then emit "error" (message_dict "uuid is required") sid
  else
    u <- lift (Py.getitem data "uuid") ;;
    match Py.UUID u with
    | Raise ValueError | Raise TypeError =>
        emit "error" (message_dict "Invalid uuid") sid
    | Raise e => raise e
    | Ok _ =>
        (* uuid.UUID returns only for a str argument (UUID_Ok_str below):
           the dictionaries hold str values, as their annotation says *)
        match u with
        | VStr u =>
            set_by_sid sid u ;;
            set_by_uuid u sid ;;
            emit "registered" (VDict (("uuid", VStr u) :: nil)) sid
        | _ => raise TypeError
        end
    end.

Definition message (sid : string) (data : pyval) : M unit :=
  missing <- (m1 <- lacks data "to_uuid" ;;
              if m1 : bool then ret true
              else (b <- lift (Py.contains data "text") ;; ret (negb b))) ;;
  if missing : bool
  then emit "error" (message_dict "to_uuid and text are required") sid
  else
    to_uuid <- lift (Py.getitem data "to_uuid") ;;
    text <- lift (Py.getitem data "text") ;;
    from_uuid <- get_by_sid sid ;;
    match from_uuid with
    | None | Some EmptyString =>
        (* if not from_uuid *)
        emit "error" (message_dict "Call register with your uuid first") sid
    | Some from_uuid =>
        to_key <- lift (PyKey.hash to_uuid) ;;
        target_sid <- get_by_uuid to_key ;;
        match target_sid with
        | None | Some EmptyString =>
            (* if not target_sid *)
            emit "error"
                 (message_dict ("Peer " +:+ PyKey.format to_key +:+ " is not online"))
                 sid
        | Some target_sid =>
            emit "message"
                 (VDict (("from_uuid", VStr from_uuid) :: ("text", text) :: nil))
                 target_sid ;;
            emit "message_sent" (VDict (("to_uuid", to_uuid) :: nil)) sid
        end
    end.

(** ** Events and runs *)

Inductive ev : Type :=
| EConnect (sid : string)
| EDisconnect (sid : string)
| ERegister (sid : string) (data : pyval)
| EMessage (sid : string) (data : pyval).

Definition handle (e : ev) : M unit :=
  match e with
  | EConnect sid => connect sid
  | EDisconnect sid => disconnect sid
  | ERegister sid data => register sid data
  | EMessage sid data => message sid data
  end.

(** What a handler call leaves behind. *)
Definition state_after {A} (m : M A) (st : registry) : registry := snd (fst (m st)).
Definition emitted {A} (m : M A) (st : registry) : list emission := snd (m st).
Definition outcome {A} (m : M A) (st : registry) : except A := fst (fst (m st)).

Definition run (st : registry) (es : list ev) : registry :=
  fold_left (fun st e => state_after (handle e) st) es st.

Inductive reachable : registry -> Prop :=
| reachable_init : reachable empty_registry
| reachable_step st e : reachable st -> reachable (state_after (handle e) st).

(** ** The registry operations of the specification, as the handlers
    perform them ([remove] is the [disconnect] handler itself) *)

Inductive identity_result : Type := Identity (u : string) | NotFound.
Inductive connection_result : Type := Connection (sid : string) | Offline.

(** [users_by_sid.get(sid)] followed by the test [if not from_uuid]. *)
Definition lookup_identity_of (st : registry) (conn : string) : identity_result :=
  match users_by_sid st !! conn with
  | None | Some EmptyString => NotFound
  | Some u => Identity u
  end.

(** [users_by_uuid.get(to_uuid)] followed by the test [if not target_sid]. *)
Definition lookup_connection_of (st : registry) (identity : string) : connection_result :=
  match users_by_uuid st !! identity with
  | None | Some EmptyString => Offline
  | Some sid => Connection sid
  end.

(** The two assignments of [register], lines 46-47. *)
Definition registry_register (conn identity : string) (st : registry) : registry :=
  state_after (set_by_sid conn identity ;; set_by_uuid identity conn) st.

(** ** Predicates used in the statements *)

(** The identity validator of [register]: [uuid.UUID(u)] returns. *)
Definition is_valid_uuid (u : string) : bool :=
  match Py.UUID (VStr u) with Ok _ => true | Raise _ => false end.

Definition is_str_or_None (v : pyval) : bool :=
  match v with VNone | VStr _ => true | _ => false end.

(** Every identity stored in either dictionary passed the validator. *)
Definition identities_valid (st : registry) : Prop :=
  (forall sid u, users_by_sid st !! sid = Some u -> is_valid_uuid u = true) /\
  (forall u sid, users_by_uuid st !! u = Some sid -> is_valid_uuid u = true).

(** The two dictionaries are inverse to each other. *)
Definition registry_bijection (st : registry) : Prop :=
  forall conn identity,
    users_by_sid st !! conn = Some identity <->
    users_by_uuid st !! identity = Some conn.

(** Payloads as the console client sends them. *)
Definition register_payload (u : pyval) : pyval :=
  VDict (("uuid", u) :: nil).

Definition message_payload (to_uuid text : pyval) : pyval :=
  VDict (("to_uuid", to_uuid) :: ("text", text) :: nil).

(** ** Textual forms of a UUID

    The docstring of uuid.UUID: a string of 32 hexadecimal digits, where
    hyphens, curly braces and a URN prefix are all optional. *)

Definition is_hex_digit (c : ascii) : bool := (Py.digit_value c <? 16)%N.

Definition is_hyphen (c : ascii) : bool := Ascii.eqb c "-"%char.

Fixpoint all_chars (p : ascii -> bool) (s : string) : bool :=
  match s with
  | EmptyString => true
  | String c r => p c && all_chars p r
  end.

Fixpoint count_chars (p : ascii -> bool) (s : string) : nat :=
  match s with
  | EmptyString => O
  | String c r => ((if p c then 1 else 0) + count_chars p r)%nat
  end.

(** 32 hexadecimal digits with hyphens anywhere between them. *)
Definition hex_text (s : string) : bool :=
  all_chars (fun c => is_hex_digit c || is_hyphen c) s
  && (count_chars is_hex_digit s =? 32)%nat.

(** [n] hexadecimal digits at the head of [s]; the rest of [s]. *)
Fixpoint take_hex (n : nat) (s : string) : option string :=
  match n with
  | O => Some s
  | S n' =>
      match s with
      | String c r => if is_hex_digit c then take_hex n' r else None
      | EmptyString => None
      end
  end.

(** Groups of hexadecimal digits of the given sizes, joined by hyphens. *)
Fixpoint hyphenated (groups : list nat) (s : string) : bool :=
  match groups with
  | nil => false
  | n :: rest =>
      match take_hex n s, rest with
      | Some EmptyString, nil => true
      | Some (String c r), _ :: _ => is_hyphen c && hyphenated rest r
      | _, _ => false
      end
  end.

(** The canonical form: groups of 8, 4, 4, 4 and 12 hexadecimal digits, of
    either case. *)
Definition canonical_text (s : string) : bool :=
  hyphenated (8 :: 4 :: 4 :: 4 :: 12 :: nil)%nat s.

(** The hexadecimal digits of a text, hyphens dropped. *)
Fixpoint drop_hyphens (s : string) : string :=
  match s with
  | EmptyString => EmptyString
  | String c r => if is_hyphen c then drop_hyphens r else String c (drop_hyphens r)
  end.

(** The number written by a string of hexadecimal digits, most
    significant digit first, continuing from [acc]. *)
Fixpoint hex_value (acc : Z) (h : string) : Z :=
  match h with
  | EmptyString => acc
  | String c r => hex_value (acc * 16 + Z.of_N (Py.digit_value c)) r
  end.

(** The 128-bit value of a text of 32 hexadecimal digits and hyphens. *)
Definition uuid_value (s : string) : Z := hex_value 0 (drop_hyphens s).

Definition in_braces (s : string) : string := "{" +:+ s +:+ "}".

Definition as_urn (s : string) : string := "urn:uuid:" +:+ s.

(** Upper case of an ASCII letter. *)
Definition upper_char (c : ascii) : ascii :=
  let n := N_of_ascii c in
  if ((97 <=? n) && (n <=? 122))%N then ascii_of_N (n - 32) else c.

Fixpoint upper (s : string) : string :=
  match s with
  | EmptyString => EmptyString
  | String c r => String (upper_char c) (upper r)
  end.

(** Sample identities and runs for the closed statements. *)
Definition uuid_1 : string := "11111111-1111-1111-1111-111111111111".
Definition uuid_2 : string := "22222222-2222-2222-2222-222222222222".
Definition uuid_lower : string := "abcdef12-3456-7890-abcd-ef1234567890".
Definition uuid_upper : string := "ABCDEF12-3456-7890-ABCD-EF1234567890".

(** A registers, then B registers the same identity. *)
Definition displaced_run : list ev :=
  ERegister "A" (register_payload (VStr uuid_1)) ::
  ERegister "B" (register_payload (VStr uuid_1)) :: nil.

(** A registers, then registers again under another identity. *)
Definition rehomed_run : list ev :=
  ERegister "A" (register_payload (VStr uuid_1)) ::
  ERegister "A" (register_payload (VStr uuid_2)) :: nil.


(** A and B register two distinct identities. *)
Definition two_peers_run : list ev :=
  ERegister "A" (register_payload (VStr uuid_1)) ::
  ERegister "B" (register_payload (VStr uuid_2)) :: nil.

(** ** The console client and the entry point (lines 76-129)

    [run_client] connects, registers [my_uuid], then runs a reader
    thread ([feed]) that puts the stripped input lines on a queue and a
    sender task ([send_input]) that takes them off in order.  The
    standard input is the list of its lines; [input] on an exhausted
    input raises EOFError.  The client's own event handlers only print
    and are left out. *)

Module Console.

(** [str.isspace] for one character (code points 0..255): what
    [str.strip()] removes. *)
Definition is_whitespace (c : ascii) : bool :=
  let n := N_of_ascii c in
  (((9 <=? n) && (n <=? 13)) || ((28 <=? n) && (n <=? 32))
   || (n =? 133) || (n =? 160))%N.

Fixpoint lstrip (s : string) : string :=
  match s with
  | EmptyString => EmptyString
  | String c s' => if is_whitespace c then lstrip s' else s
  end.

Fixpoint rstrip (s : string) : string :=
  match s with
  | EmptyString => EmptyString
  | String c s' =>
      match rstrip s' with
      | EmptyString => if is_whitespace c then EmptyString else String c EmptyString
      | r => String c r
      end
  end.

(** [s.strip()] *)
Definition strip (s : string) : string := rstrip (lstrip s).

(** How the reader thread ends: it returns after a blank line, or dies
    with EOFError when the input runs out. *)
Inductive feed_end : Type := FeedReturned | FeedEOFError.

(** [feed]: the items put on the queue, in order ([None] for the blank
    line that ends the loop), and how the thread ends. *)
Fixpoint feed (stdin : list string) : list (option string) * feed_end :=
  match stdin with
  | nil => (nil, FeedEOFError)
  | raw :: rest =>
      let line := strip raw in
      if Py.str_truthy line
      then let '(queue, fin) := feed rest in (Some line :: queue, fin)
      else (None :: nil, FeedReturned)
  end.

(** What the client does on its connection. *)
Inductive client_action : Type :=
| CConnect (server_url : string)
| CEmit (name : string) (data : pyval)
| CDisconnect.

(** [send_input] on the items of the queue: one "message" emit per text,
    until the [None]. *)
Fixpoint send_input (peer_uuid : string) (queue : list (option string))
  : list client_action :=
  match queue with
  | nil => nil
  | None :: _ => nil
  | Some text :: rest =>
      CEmit "message"
        (VDict (("to_uuid", VStr peer_uuid) :: ("text", VStr text) :: nil))
      :: send_input peer_uuid rest
  end.

(** [run_client] on an input that has a blank line: connect, register,
    the messages, disconnect.  When the reader dies with EOFError the
    exception ends [gather] while the sender may still hold queued
    texts; that run has no definite sequence and is [None]. *)
Definition run_client (my_uuid peer_uuid server_url : string)
    (stdin : list string) : option (list client_action) :=
  match feed stdin with
  | (queue, FeedReturned) =>
      Some (CConnect server_url
            :: CEmit "register" (VDict (("uuid", VStr my_uuid) :: nil))
            :: (send_input peer_uuid queue ++ CDisconnect :: nil)%list)
  | (_, FeedEOFError) => None
  end.

(** What the entry point starts. *)
Inductive action : Type :=
| Serve (host : string) (port : Z)
| Usage (printed : string) (exit_code : Z)
| Client (my_uuid peer_uuid url : string).

(** The [__main__] block on [sys.argv]; [uuid4] is the text that
    [str(uuid.uuid4())] gives when it is called. *)
Definition main (argv : list string) (uuid4 : string) : action :=
  if (2 <=? List.length argv)%nat && String.eqb (nth 1 argv EmptyString) "--client"
  then
    let my_uuid := if (2 <? List.length argv)%nat then nth 2 argv EmptyString else uuid4 in
    let peer_uuid := if (3 <? List.length argv)%nat then nth 3 argv EmptyString else EmptyString in
    let url :=
      if (4 <? List.length argv)%nat then nth 4 argv EmptyString
      else "http://localhost:8000" in
    if negb (Py.str_truthy peer_uuid)
    then Usage "Usage: python main.py --client <my_uuid> <peer_uuid> [url]" 1
    else Client my_uuid peer_uuid url
  else Serve "0.0.0.0" 8000.

End Console.

(** ** The server on a sequence of events *)

(** The registry and the emits after each event of the list has been
    handled in turn.  A handler that raises leaves the registry as its
    body left it; the server goes on with the next event. *)
Definition serve (st : registry) (es : list ev) : registry * list emission :=
  fold_left
    (fun acc e =>
       let r := handle e (fst acc) in (snd (fst r), (snd acc ++ snd r)%list))
    es (st, nil).

(** The events one connection's client actions raise on the server. *)
Definition client_event (sid : string) (a : Console.client_action) : list ev :=
  match a with
  | Console.CConnect _ => EConnect sid :: nil
  | Console.CEmit name data =>
      if String.eqb name "register" then ERegister sid data :: nil
      else if String.eqb name "message" then EMessage sid data :: nil
      else nil
  | Console.CDisconnect => EDisconnect sid :: nil
  end.

Definition client_events (sid : string) (acts : list Console.client_action) : list ev :=
  concat (map (client_event sid) acts).

(** The connection an event comes from. *)
Definition ev_sid (e : ev) : string :=
  match e with
  | EConnect sid | EDisconnect sid | ERegister sid _ | EMessage sid _ => sid
  end.

(** A run in which every register event finds its connection and its
    identity both unbound, or already bound to each other. *)
Definition fresh_register (st : registry) (e : ev) : Prop :=
  match e with
  | ERegister sid data =>
      forall u, Py.getitem data "uuid" = Ok (VStr u) ->
        (users_by_sid st !! sid = None /\ users_by_uuid st !! u = None) \/
        (users_by_sid st !! sid = Some u /\ users_by_uuid st !! u = Some sid)
  | _ => True
  end.

Fixpoint disciplined (st : registry) (es : list ev) : Prop :=
  match es with
  | nil => True
  | e :: es' => fresh_register st e /\ disciplined (state_after (handle e) st) es'
  end.

Definition registrations (pairs : list (string * string)) : list ev :=
  map (fun p => ERegister (fst p) (register_payload (VStr (snd p)))) pairs.

Definition disconnections (sids : list string) : list ev :=
  map EDisconnect sids.

(** * Properties *)

(** ** The library model on the docstring's examples of uuid.UUID *)

Example UUID_plain :
  Py.UUID (VStr "12345678123456781234567812345678")
  = Ok 0x12345678123456781234567812345678.
Proof. vm_compute. reflexivity. Qed.

Example UUID_braces :
  Py.UUID (VStr "{12345678-1234-5678-1234-567812345678}")
  = Ok 0x12345678123456781234567812345678.
Proof. vm_compute. reflexivity. Qed.

Example UUID_urn :
  Py.UUID (VStr "urn:uuid:12345678-1234-5678-1234-567812345678")
  = Ok 0x12345678123456781234567812345678.
Proof. vm_compute. reflexivity. Qed.

Example UUID_case :
  Py.UUID (VStr uuid_upper) = Py.UUID (VStr uuid_lower).
Proof. vm_compute. reflexivity. Qed.

Example UUID_empty : Py.UUID (VStr EmptyString) = Raise ValueError.
Proof. vm_compute. reflexivity. Qed.

Example UUID_short : Py.UUID (VStr "uuid-A") = Raise ValueError.
Proof. vm_compute. reflexivity. Qed.

Example UUID_not_hex :
  Py.UUID (VStr "1234567812345678123456781234567g") = Raise ValueError.
Proof. vm_compute. reflexivity. Qed.

Example UUID_None : Py.UUID VNone = Raise TypeError.
Proof. reflexivity. Qed.

Example UUID_int : Py.UUID (VInt 123) = Raise AttributeError.
Proof. reflexivity. Qed.

(** uuid.UUID returns only for a non-empty str. *)
Lemma UUID_Ok_str u n :
  Py.UUID u = Ok n -> exists s, u = VStr s /\ Py.str_truthy s = true.
Proof.
  destruct u as [| b | z | s | l | kvs]; simpl; try discriminate.
  intros H. exists s. split; [reflexivity|].
  destruct s; [|reflexivity]. exfalso. revert H. vm_compute. discriminate.
Qed.

Lemma valid_uuid_truthy u : is_valid_uuid u = true -> Py.str_truthy u = true.
Proof.
  unfold is_valid_uuid. destruct (Py.UUID (VStr u)) as [n|e] eqn:E; [|discriminate].
  intros _. destruct (UUID_Ok_str _ _ E) as (s & Hs & Ht). by inversion Hs.
Qed.

(** ** The validator on the textual forms of a UUID *)

Lemma hex_digit_char c :
  is_hex_digit c = true ->
  Py.is_space c = false /\ Ascii.eqb c "+" = false /\ Ascii.eqb c "-" = false /\
  Ascii.eqb c "_" = false /\ Ascii.eqb c "x" = false /\ Ascii.eqb c "X" = false /\
  Ascii.eqb c "u" = false /\ Py.char_in c "{}" = false.
Proof.
  destruct c as [[] [] [] [] [] [] [] []]; vm_compute; intros H;
    try discriminate H; repeat split.
Qed.

Lemma hyphen_char c :
  is_hyphen c = true ->
  c = "-"%char /\ Ascii.eqb c "u" = false /\ Py.char_in c "{}" = false /\
  is_hex_digit c = false.
Proof.
  unfold is_hyphen. intros ->%Ascii.eqb_eq. by vm_compute.
Qed.

Lemma all_chars_impl (p q : ascii -> bool) s :
  (forall c, p c = true -> q c = true) ->
  all_chars p s = true -> all_chars q s = true.
Proof.
  intros Hpq. induction s as [|c r IH]; simpl; [done|].
  intros [Hc Hr]%andb_true_iff. rewrite (Hpq _ Hc). by apply IH.
Qed.

Lemma all_chars_app p s t :
  all_chars p (s +:+ t) = all_chars p s && all_chars p t.
Proof.
  induction s as [|c r IH]; simpl; [done|]. by rewrite IH, andb_assoc.
Qed.

Lemma prefix_empty s : String.prefix EmptyString s = true.
Proof. by destruct s. Qed.

Lemma prefix_head_differs c0 old c s :
  Ascii.eqb c c0 = false -> String.prefix (String c0 old) (String c s) = false.
Proof.
  intros H. simpl. destruct (ascii_dec c0 c) as [->|]; [|done].
  by rewrite Ascii.eqb_refl in H.
Qed.

(** [replace] leaves a string alone in which the first character of the
    pattern does not occur. *)
Lemma remove_all_absent c0 old s :
  all_chars (fun c => negb (Ascii.eqb c c0)) s = true ->
  Py.remove_all (String c0 old) s = s.
Proof.
  unfold Py.remove_all. induction s as [|c r IH]; [done|].
  simpl all_chars. intros [Hc Hr]%andb_true_iff.
  apply negb_true_iff in Hc.
  cbn [Py.remove_all_from]. rewrite (prefix_head_differs _ _ _ _ Hc).
  by rewrite IH.
Qed.

Lemma remove_all_hyphen s : Py.remove_all "-" s = drop_hyphens s.
Proof.
  unfold Py.remove_all. induction s as [|c r IH]; [done|].
  cbn [Py.remove_all_from drop_hyphens]. unfold is_hyphen.
  destruct (Ascii.eqb c "-") eqn:E.
  - apply Ascii.eqb_eq in E as ->. simpl.
    rewrite prefix_empty.
    exact IH.
  - rewrite (prefix_head_differs _ _ _ _ E). by rewrite IH.
Qed.

Lemma lstrip_absent chars c s :
  Py.char_in c chars = false -> Py.lstrip chars (String c s) = String c s.
Proof. intros H. simpl. by rewrite H. Qed.

Lemma rstrip_absent chars s :
  all_chars (fun c => negb (Py.char_in c chars)) s = true ->
  Py.rstrip chars s = s.
Proof.
  induction s as [|c r IH]; [done|].
  simpl all_chars. intros [Hc Hr]%andb_true_iff. apply negb_true_iff in Hc.
  cbn [Py.rstrip]. rewrite (IH Hr), Hc. by destruct r.
Qed.

Lemma strip_absent chars s :
  all_chars (fun c => negb (Py.char_in c chars)) s = true ->
  Py.strip chars s = s.
Proof.
  intros H. unfold Py.strip. destruct s as [|c r]; [done|].
  pose proof H as H'. simpl in H'. apply andb_true_iff in H' as [Hc _].
  apply negb_true_iff in Hc. rewrite (lstrip_absent _ _ _ Hc).
  by apply rstrip_absent.
Qed.

Lemma rstrip_closing_brace s :
  all_chars (fun c => negb (Py.char_in c "{}")) s = true ->
  Py.rstrip "{}" (s +:+ "}") = s.
Proof.
  induction s as [|c r IH]; [done|].
  simpl all_chars. intros [Hc Hr]%andb_true_iff. apply negb_true_iff in Hc.
  change (String c r +:+ "}") with (String c (r +:+ "}")).
  cbn [Py.rstrip]. rewrite (IH Hr), Hc. by destruct r.
Qed.

Lemma strip_in_braces s :
  all_chars (fun c => negb (Py.char_in c "{}")) s = true ->
  Py.strip "{}" (in_braces s) = s.
Proof.
  intros H. unfold Py.strip, in_braces.
  change ("{" +:+ s +:+ "}") with (String "{" (s +:+ "}")).
  cbn [Py.lstrip]. change (Py.char_in "{" "{}") with true. cbn iota.
  destruct s as [|c r]; [done|].
  pose proof H as H'. simpl in H'. apply andb_true_iff in H' as [Hc _].
  apply negb_true_iff in Hc.
  change (String c r +:+ "}") with (String c (r +:+ "}")).
  rewrite (lstrip_absent _ _ _ Hc).
  by apply (rstrip_closing_brace (String c r)).
Qed.

Lemma scan_digits_hex acc h :
  all_chars is_hex_digit h = true ->
  Py.scan_digits 16 false acc h = Some (hex_value acc h, EmptyString).
Proof.
  revert acc. induction h as [|c r IH]; intros acc; [done|].
  simpl all_chars. intros [Hc Hr]%andb_true_iff.
  destruct (hex_digit_char _ Hc) as (_ & _ & _ & Hus & _).
  cbn [Py.scan_digits hex_value]. rewrite Hus.
  unfold is_hex_digit in Hc. rewrite Hc. by apply IH.
Qed.

Lemma hex_value_bound acc h :
  all_chars is_hex_digit h = true ->
  0 <= acc ->
  0 <= hex_value acc h < (acc + 1) * 16 ^ Z.of_nat (String.length h).
Proof.
  revert acc. induction h as [|c r IH]; intros acc.
  - simpl. lia.
  - simpl all_chars. intros [Hc Hr]%andb_true_iff Hacc.
    unfold is_hex_digit in Hc. apply N.ltb_lt in Hc.
    cbn [hex_value String.length].
    specialize (IH (acc * 16 + Z.of_N (Py.digit_value c)) Hr ltac:(lia)).
    rewrite Nat2Z.inj_succ, Z.pow_succ_r by lia.
    assert (0 < 16 ^ Z.of_nat (String.length r)) by (apply Z.pow_pos_nonneg; lia).
    nia.
Qed.

Lemma parse_int16_hex h :
  all_chars is_hex_digit h = true ->
  h <> EmptyString ->
  Py.parse_int16 h = Some (hex_value 0 h).
Proof.
  intros Hh Hne. destruct h as [|c r]; [done|].
  pose proof Hh as Hh'. simpl in Hh'. apply andb_true_iff in Hh' as [Hc Hr].
  destruct (hex_digit_char _ Hc) as (Hsp & Hplus & Hminus & Hus & _).
  unfold Py.parse_int16. cbn [Py.skip_spaces]. rewrite Hsp, Hplus, Hminus.
  assert (Hprefix :
    match r with
    | String x r0 =>
        if Ascii.eqb c "0" && (Ascii.eqb x "x" || Ascii.eqb x "X")
        then match r0 with
             | String c1 r' => if Ascii.eqb c1 "_" then r' else r0
             | EmptyString => r0
             end
        else String c r
    | EmptyString => String c r
    end = String c r).
  { destruct r as [|x r0]; [done|].
    simpl in Hr. apply andb_true_iff in Hr as [Hx _].
    destruct (hex_digit_char _ Hx) as (_ & _ & _ & _ & -> & -> & _).
    by rewrite andb_false_r. }
  rewrite Hprefix.
  rewrite (prefix_head_differs _ _ _ _ Hus).
  rewrite (scan_digits_hex _ _ Hh). simpl. by rewrite Z.mul_1_l.
Qed.

(** Once the prefixes, braces and hyphens are removed and 32 hexadecimal
    digits are left, the constructor returns their value. *)
Lemma UUID_of_hex_digits s h :
  Py.remove_all "-"
    (Py.strip "{}" (Py.remove_all "uuid:" (Py.remove_all "urn:" s))) = h ->
  all_chars is_hex_digit h = true ->
  String.length h = 32%nat ->
  Py.UUID_of_hex s = Ok (hex_value 0 h).
Proof.
  intros Hnorm Hh Hlen. unfold Py.UUID_of_hex. rewrite Hnorm, Hlen. cbn [Nat.eqb negb].
  unfold Py.int16. rewrite (parse_int16_hex _ Hh) by (by destruct h).
  pose proof (hex_value_bound 0 h Hh ltac:(lia)) as Hb. rewrite Hlen in Hb.
  change (Z.shiftl 1 128) with ((0 + 1) * 16 ^ Z.of_nat 32).
  replace (0 <=? hex_value 0 h) with true by (symmetry; apply Z.leb_le; lia).
  replace (hex_value 0 h <? (0 + 1) * 16 ^ Z.of_nat 32) with true
    by (symmetry; apply Z.ltb_lt; lia).
  reflexivity.
Qed.

Lemma drop_hyphens_hex s :
  all_chars (fun c => is_hex_digit c || is_hyphen c) s = true ->
  all_chars is_hex_digit (drop_hyphens s) = true /\
  String.length (drop_hyphens s) = count_chars is_hex_digit s.
Proof.
  induction s as [|c r IH]; [done|].
  simpl all_chars. intros [Hc Hr]%andb_true_iff.
  destruct (IH Hr) as [IH1 IH2]. cbn [drop_hyphens count_chars].
  destruct (is_hyphen c) eqn:Hy.
  - destruct (hyphen_char _ Hy) as (_ & _ & _ & ->). done.
  - rewrite orb_false_r in Hc. rewrite Hc. simpl. rewrite Hc, IH1, IH2. done.
Qed.

Lemma hex_text_chars s :
  hex_text s = true ->
  all_chars (fun c => negb (Ascii.eqb c "u")) s = true /\
  all_chars (fun c => negb (Py.char_in c "{}")) s = true /\
  all_chars is_hex_digit (drop_hyphens s) = true /\
  String.length (drop_hyphens s) = 32%nat.
Proof.
  unfold hex_text. intros [Hall Hcount]%andb_true_iff.
  apply Nat.eqb_eq in Hcount.
  destruct (drop_hyphens_hex _ Hall) as [H1 H2].
  repeat split; [| |done|congruence].
  - revert Hall. apply all_chars_impl. intros c [Hc|Hc]%orb_true_iff.
    + by destruct (hex_digit_char _ Hc) as (_ & _ & _ & _ & _ & _ & -> & _).
    + by destruct (hyphen_char _ Hc) as (_ & -> & _).
  - revert Hall. apply all_chars_impl. intros c [Hc|Hc]%orb_true_iff.
    + by destruct (hex_digit_char _ Hc) as (_ & _ & _ & _ & _ & _ & _ & ->).
    + by destruct (hyphen_char _ Hc) as (_ & _ & -> & _).
Qed.

(** 32 hexadecimal digits, with or without hyphens. *)
Lemma UUID_hex_text s :
  hex_text s = true -> Py.UUID (VStr s) = Ok (uuid_value s).
Proof.
  intros (Hu & Hb & Hh & Hlen)%hex_text_chars. simpl.
  apply UUID_of_hex_digits; [|done..].
  rewrite (remove_all_absent "u" "rn:"), (remove_all_absent "u" "uid:") by done.
  by rewrite strip_absent, remove_all_hyphen.
Qed.

(** The same in curly braces. *)
Lemma UUID_in_braces s :
  hex_text s = true -> Py.UUID (VStr (in_braces s)) = Ok (uuid_value s).
Proof.
  intros (Hu & Hb & Hh & Hlen)%hex_text_chars. simpl.
  apply UUID_of_hex_digits; [|done..].
  assert (Hu' : all_chars (fun c => negb (Ascii.eqb c "u")) (in_braces s) = true).
  { unfold in_braces. change ("{" +:+ s +:+ "}") with (String "{" (s +:+ "}")).
    simpl. by rewrite all_chars_app, Hu. }
  rewrite (remove_all_absent "u" "rn:"), (remove_all_absent "u" "uid:") by done.
  by rewrite strip_in_braces, remove_all_hyphen.
Qed.

(** The same after the URN prefix. *)
Lemma UUID_as_urn s :
  hex_text s = true -> Py.UUID (VStr (as_urn s)) = Ok (uuid_value s).
Proof.
  intros (Hu & Hb & Hh & Hlen)%hex_text_chars. simpl.
  apply UUID_of_hex_digits; [|done..].
  assert (Hurn : Py.remove_all "urn:" (as_urn s) = "uuid:" +:+ s).
  { unfold as_urn, Py.remove_all.
    change ("urn:uuid:" +:+ s)
      with (String "u" (String "r" (String "n" (String ":" ("uuid:" +:+ s))))).
    cbn -[String.append]. 
    change ("uuid:" +:+ s)
      with (String "u" (String "u" (String "i" (String "d" (String ":" s))))).
    cbn. f_equal. f_equal. f_equal. f_equal. f_equal.
    by apply (remove_all_absent "u" "rn:"). }
  rewrite Hurn.
  assert (Huuid : Py.remove_all "uuid:" ("uuid:" +:+ s) = s).
  { unfold Py.remove_all.
    change ("uuid:" +:+ s)
      with (String "u" (String "u" (String "i" (String "d" (String ":" s))))).
    cbn. rewrite prefix_empty. by apply (remove_all_absent "u" "uid:"). }
  by rewrite Huuid, strip_absent, remove_all_hyphen.
Qed.

(** The canonical form is a text of 32 hexadecimal digits and hyphens. *)
Lemma take_hex_counts n s r :
  take_hex n s = Some r ->
  all_chars (fun c => is_hex_digit c || is_hyphen c) s
  = all_chars (fun c => is_hex_digit c || is_hyphen c) r /\
  count_chars is_hex_digit s = (n + count_chars is_hex_digit r)%nat.
Proof.
  revert s. induction n as [|n IH]; intros s; simpl.
  - by intros [= ->].
  - destruct s as [|c s']; [done|]. destruct (is_hex_digit c) eqn:Hc; [|done].
    intros [H1 H2]%IH. simpl. by rewrite Hc, H1, H2.
Qed.

Lemma hyphenated_counts groups s :
  hyphenated groups s = true ->
  all_chars (fun c => is_hex_digit c || is_hyphen c) s = true /\
  count_chars is_hex_digit s = list_sum groups.
Proof.
  revert s. induction groups as [|n rest IH]; intros s; [done|].
  cbn [hyphenated]. destruct (take_hex n s) as [r|] eqn:Htake; [|done].
  destruct (take_hex_counts _ _ _ Htake) as [H1 H2]. rewrite H1, H2.
  destruct r as [|c r], rest as [|m rest]; try discriminate.
  - intros _. simpl. split; [done|lia].
  - intros [Hy Hrest]%andb_true_iff. destruct (IH _ Hrest) as [H3 H4].
    destruct (hyphen_char _ Hy) as (_ & _ & _ & Hnh).
    cbn [all_chars count_chars]. rewrite Hy, Hnh, H3, H4. simpl. split; [done|lia].
Qed.

Lemma canonical_hex_text s : canonical_text s = true -> hex_text s = true.
Proof.
  intros [H1 H2]%hyphenated_counts. unfold hex_text. by rewrite H1, H2.
Qed.

(** The validator accepts every canonical text, and gives its value. *)
Lemma UUID_canonical s :
  canonical_text s = true -> Py.UUID (VStr s) = Ok (uuid_value s).
Proof. intros H. by apply UUID_hex_text, canonical_hex_text. Qed.

Lemma canonical_valid s : canonical_text s = true -> is_valid_uuid s = true.
Proof. intros H. unfold is_valid_uuid. by rewrite (UUID_canonical _ H). Qed.

(** *** Other spellings of the same value *)

Lemma drop_hyphens_idem s : drop_hyphens (drop_hyphens s) = drop_hyphens s.
Proof.
  induction s as [|c r IH]; [done|]. simpl.
  destruct (is_hyphen c) eqn:Hc; [done|]. simpl. by rewrite Hc, IH.
Qed.

Lemma count_all_hex h :
  all_chars is_hex_digit h = true -> count_chars is_hex_digit h = String.length h.
Proof.
  induction h as [|c r IH]; [done|]. simpl.
  intros [-> Hr]%andb_true_iff. by rewrite IH.
Qed.

Lemma hex_text_drop_hyphens s :
  hex_text s = true ->
  hex_text (drop_hyphens s) = true /\
  uuid_value (drop_hyphens s) = uuid_value s.
Proof.
  intros (_ & _ & Hh & Hlen)%hex_text_chars. split.
  - unfold hex_text. rewrite (count_all_hex _ Hh), Hlen.
    rewrite andb_true_r. revert Hh. apply all_chars_impl. by intros c ->.
  - unfold uuid_value. by rewrite drop_hyphens_idem.
Qed.

Lemma upper_char_digit c :
  Py.digit_value (upper_char c) = Py.digit_value c /\
  is_hyphen (upper_char c) = is_hyphen c.
Proof. destruct c as [[] [] [] [] [] [] [] []]; by vm_compute. Qed.

Lemma upper_text s :
  all_chars (fun c => is_hex_digit c || is_hyphen c) (upper s)
  = all_chars (fun c => is_hex_digit c || is_hyphen c) s /\
  count_chars is_hex_digit (upper s) = count_chars is_hex_digit s /\
  drop_hyphens (upper s) = upper (drop_hyphens s).
Proof.
  induction s as [|c r (IH1 & IH2 & IH3)]; [done|].
  destruct (upper_char_digit c) as [Hd Hy].
  cbn [upper all_chars count_chars drop_hyphens]. unfold is_hex_digit in *.
  rewrite Hd, Hy, IH1, IH2, IH3. by destruct (is_hyphen c).
Qed.

Lemma hex_value_upper acc h : hex_value acc (upper h) = hex_value acc h.
Proof.
  revert acc. induction h as [|c r IH]; intros acc; [done|].
  destruct (upper_char_digit c) as [Hd _]. simpl. by rewrite Hd, IH.
Qed.

Lemma hex_text_upper s :
  hex_text s = true ->
  hex_text (upper s) = true /\ uuid_value (upper s) = uuid_value s.
Proof.
  intros H. destruct (upper_text s) as (H1 & H2 & H3). split.
  - unfold hex_text in *. by rewrite H1, H2.
  - unfold uuid_value. by rewrite H3, hex_value_upper.
Qed.

Lemma append_length s t :
  String.length (s +:+ t) = (String.length s + String.length t)%nat.
Proof. induction s as [|c r IH]; [done|]. simpl. by rewrite IH. Qed.

(** The spellings of one canonical text: they all pass the validator
    with the same value, and the ones in braces, with the URN prefix and
    without hyphens are other strings. *)
Lemma spellings_same_value s :
  canonical_text s = true ->
  Py.UUID (VStr (upper s)) = Py.UUID (VStr s) /\
  Py.UUID (VStr (drop_hyphens s)) = Py.UUID (VStr s) /\
  Py.UUID (VStr (in_braces s)) = Py.UUID (VStr s) /\
  Py.UUID (VStr (as_urn s)) = Py.UUID (VStr s).
Proof.
  intros Hs%canonical_hex_text.
  destruct (hex_text_upper _ Hs) as [Hu Huv].
  destruct (hex_text_drop_hyphens _ Hs) as [Hd Hdv].
  rewrite (UUID_hex_text _ Hs), (UUID_hex_text _ Hu), (UUID_hex_text _ Hd),
    (UUID_in_braces _ Hs), (UUID_as_urn _ Hs), Huv, Hdv. done.
Qed.

Lemma take_hex_rest_hex n s r :
  take_hex n s = Some r ->
  all_chars is_hex_digit s = true -> all_chars is_hex_digit r = true.
Proof.
  revert s. induction n as [|n IH]; intros s; simpl.
  - by intros [= ->].
  - destruct s as [|c s']; [done|]. destruct (is_hex_digit c); [|done].
    intros Hr [_ H]%andb_true_iff. by apply (IH s').
Qed.

Lemma canonical_has_hyphen s :
  canonical_text s = true -> all_chars is_hex_digit s = false.
Proof.
  unfold canonical_text. cbn [hyphenated].
  destruct (take_hex 8 s) as [[|c r]|] eqn:Htake; try done.
  intros [Hy _]%andb_true_iff. destruct (hyphen_char _ Hy) as (_ & _ & _ & Hnh).
  destruct (all_chars is_hex_digit s) eqn:Hall; [|done].
  pose proof (take_hex_rest_hex _ _ _ Htake Hall) as Hr. simpl in Hr.
  by rewrite Hnh in Hr.
Qed.

Lemma spellings_differ s :
  canonical_text s = true ->
  drop_hyphens s <> s /\ in_braces s <> s /\ as_urn s <> s.
Proof.
  intros Hs. pose proof (canonical_hex_text _ Hs) as Ht.
  destruct (hex_text_chars _ Ht) as (_ & _ & Hh & Hlen).
  repeat split; intros Heq.
  - rewrite Heq in Hh. by rewrite (canonical_has_hyphen _ Hs) in Hh.
  - apply (f_equal String.length) in Heq. unfold in_braces in Heq.
    rewrite !append_length in Heq. simpl in Heq. lia.
  - apply (f_equal String.length) in Heq. unfold as_urn in Heq.
    rewrite append_length in Heq. simpl in Heq. lia.
Qed.

(** ** Handler runs, path by path *)

Ltac unfold_M :=
  unfold state_after, emitted, outcome, message, register, disconnect, connect,
    lacks, bind, lift, get_by_sid, get_by_uuid, set_by_sid, set_by_uuid,
    pop_by_sid, pop_by_uuid, emit, ret, raise.

Lemma assoc_truthy k kvs v :
  Py.assoc k kvs = Some v -> Py.truthy (VDict kvs) = true.
Proof. destruct kvs; [discriminate | reflexivity]. Qed.

Lemma registry_eta st :
  {| users_by_sid := users_by_sid st; users_by_uuid := users_by_uuid st |} = st.
Proof. by destruct st. Qed.

Lemma identity_found st conn u :
  lookup_identity_of st conn = Identity u ->
  users_by_sid st !! conn = Some u /\ Py.str_truthy u = true.
Proof.
  unfold lookup_identity_of.
  destruct (users_by_sid st !! conn) as [[|c r]|]; try discriminate.
  intros [= <-]. done.
Qed.

Lemma connection_found st u sid :
  lookup_connection_of st u = Connection sid ->
  users_by_uuid st !! u = Some sid /\ Py.str_truthy sid = true.
Proof.
  unfold lookup_connection_of.
  destruct (users_by_uuid st !! u) as [[|c r]|]; try discriminate.
  intros [= <-]. done.
Qed.

Lemma disconnect_run sid st :
  disconnect sid st
  = (Ok tt,
     {| users_by_sid := delete sid (users_by_sid st);
        users_by_uuid :=
          match users_by_sid st !! sid with
          | Some (String _ _ as u) => delete u (users_by_uuid st)
          | _ => users_by_uuid st
          end |},
     nil).
Proof.
  unfold_M. destruct (users_by_sid st !! sid) as [[|c u]|]; reflexivity.
Qed.

Lemma register_run_missing sid st data :
  Py.truthy data = false \/ Py.contains data "uuid" = Ok false ->
  register sid data st
  = (Ok tt, st, Emit "error" (message_dict "uuid is required") sid :: nil).
Proof.
  unfold_M. destruct (Py.truthy data); cbn; [|reflexivity].
  intros [?| ->]; [discriminate | reflexivity].
Qed.

Lemma register_run_invalid sid st kvs u e :
  Py.assoc "uuid" kvs = Some u ->
  Py.UUID u = Raise e ->
  e = ValueError \/ e = TypeError ->
  register sid (VDict kvs) st
  = (Ok tt, st, Emit "error" (message_dict "Invalid uuid") sid :: nil).
Proof.
  intros Hu HU He. unfold_M. rewrite (assoc_truthy _ _ _ Hu). cbn.
  rewrite Hu. cbn. rewrite HU. destruct He as [-> | ->]; reflexivity.
Qed.

Lemma register_run_uncaught sid st kvs u e :
  Py.assoc "uuid" kvs = Some u ->
  Py.UUID u = Raise e ->
  e <> ValueError -> e <> TypeError ->
  register sid (VDict kvs) st = (Raise e, st, nil).
Proof.
  intros Hu HU H1 H2. unfold_M. rewrite (assoc_truthy _ _ _ Hu). cbn.
  rewrite Hu. cbn. rewrite HU. destruct e; try congruence; reflexivity.
Qed.

Lemma register_run_valid sid st kvs u :
  Py.assoc "uuid" kvs = Some (VStr u) ->
  is_valid_uuid u = true ->
  register sid (VDict kvs) st
  = (Ok tt,
     {| users_by_sid := <[sid := u]> (users_by_sid st);
        users_by_uuid := <[u := sid]> (users_by_uuid st) |},
     Emit "registered" (VDict (("uuid", VStr u) :: nil)) sid :: nil).
Proof.
  intros Hu Hv. unfold is_valid_uuid in Hv. simpl in Hv. unfold_M.
  rewrite (assoc_truthy _ _ _ Hu). cbn. rewrite Hu. cbn.
  destruct (Py.UUID_of_hex u); [reflexivity | discriminate].
Qed.

(** Whatever the payload, [register] leaves the registry as it was or
    binds the connection to a validated identity. *)
Lemma register_state sid data st :
  state_after (register sid data) st = st \/
  exists u, is_valid_uuid u = true /\
    state_after (register sid data) st
    = {| users_by_sid := <[sid := u]> (users_by_sid st);
         users_by_uuid := <[u := sid]> (users_by_uuid st) |}.
Proof.
  unfold_M. destruct (Py.truthy data); cbn; [|by left].
  destruct (Py.contains data "uuid") as [[]|]; cbn; try by left.
  destruct (Py.getitem data "uuid") as [u|]; cbn; try by left.
  destruct (Py.UUID u) as [n|e] eqn:E.
  - destruct (UUID_Ok_str _ _ E) as (s & -> & _). cbn. right. exists s.
    split; [|reflexivity]. unfold is_valid_uuid. by rewrite E.
  - destruct e; by left.
Qed.

Lemma message_state sid data st : state_after (message sid data) st = st.
Proof.
  unfold_M. destruct (Py.truthy data); cbn; [|reflexivity].
  destruct (Py.contains data "to_uuid") as [[]|]; cbn; try reflexivity.
  destruct (Py.contains data "text") as [[]|]; cbn; try reflexivity.
  destruct (Py.getitem data "to_uuid") as [to_uuid|]; cbn; try reflexivity.
  destruct (Py.getitem data "text") as [text|]; cbn; try reflexivity.
  destruct (users_by_sid st !! sid) as [[|c from_uuid]|]; cbn; try reflexivity.
  destruct (PyKey.hash to_uuid) as [k|]; cbn; try reflexivity.
  destruct (PyKey.lookup (users_by_uuid st) k) as [[|c' target]|]; reflexivity.
Qed.

Lemma message_run_unregistered sid kvs to_uuid text st :
  Py.assoc "to_uuid" kvs = Some to_uuid ->
  Py.assoc "text" kvs = Some text ->
  lookup_identity_of st sid = NotFound ->
  message sid (VDict kvs) st
  = (Ok tt, st,
     Emit "error" (message_dict "Call register with your uuid first") sid :: nil).
Proof.
  intros Hto Htext Hfrom. unfold lookup_identity_of in Hfrom.
  unfold_M. rewrite (assoc_truthy _ _ _ Hto). cbn. rewrite Hto, Htext. cbn.
  destruct (users_by_sid st !! sid) as [[|c u]|]; try discriminate; reflexivity.
Qed.

Lemma message_run_offline sid kvs to_uuid text from_uuid st :
  Py.assoc "to_uuid" kvs = Some (VStr to_uuid) ->
  Py.assoc "text" kvs = Some text ->
  lookup_identity_of st sid = Identity from_uuid ->
  lookup_connection_of st to_uuid = Offline ->
  message sid (VDict kvs) st
  = (Ok tt, st,
     Emit "error"
       (message_dict ("Peer " +:+ to_uuid +:+ " is not online")) sid :: nil).
Proof.
  intros Hto Htext Hfrom Htarget.
  unfold lookup_identity_of in Hfrom. unfold lookup_connection_of in Htarget.
  unfold_M. rewrite (assoc_truthy _ _ _ Hto). cbn. rewrite Hto, Htext. cbn.
  destruct (users_by_sid st !! sid) as [[|c u]|]; try discriminate. cbn.
  destruct (users_by_uuid st !! to_uuid) as [[|c' t]|]; try discriminate;
    reflexivity.
Qed.

Lemma message_run_delivered sid kvs to_uuid text from_uuid target st :
  Py.assoc "to_uuid" kvs = Some (VStr to_uuid) ->
  Py.assoc "text" kvs = Some text ->
  lookup_identity_of st sid = Identity from_uuid ->
  lookup_connection_of st to_uuid = Connection target ->
  message sid (VDict kvs) st
  = (Ok tt, st,
     Emit "message"
       (VDict (("from_uuid", VStr from_uuid) :: ("text", text) :: nil)) target
     :: Emit "message_sent" (VDict (("to_uuid", VStr to_uuid) :: nil)) sid
     :: nil).
Proof.
  intros Hto Htext Hfrom Htarget.
  unfold lookup_identity_of in Hfrom. unfold lookup_connection_of in Htarget.
  unfold_M. rewrite (assoc_truthy _ _ _ Hto). cbn. rewrite Hto, Htext. cbn.
  destruct (users_by_sid st !! sid) as [[|c u]|]; try discriminate. cbn.
  destruct (users_by_uuid st !! to_uuid) as [[|c' t]|]; try discriminate.
  by simplify_eq.
Qed.

(** ** Reachable registries *)

Lemma reachable_run st es : reachable st -> reachable (run st es).
Proof.
  revert st. induction es as [|e es IH]; intros st Hst; [exact Hst|].
  simpl. apply IH. by constructor.
Qed.

Lemma handle_state_connect sid st : state_after (connect sid) st = st.
Proof. reflexivity. Qed.

Lemma disconnect_state sid st :
  state_after (disconnect sid) st
  = {| users_by_sid := delete sid (users_by_sid st);
       users_by_uuid :=
         match users_by_sid st !! sid with
         | Some (String _ _ as u) => delete u (users_by_uuid st)
         | _ => users_by_uuid st
         end |}.
Proof. unfold state_after. by rewrite disconnect_run. Qed.

Lemma identities_valid_step st e :
  identities_valid st -> identities_valid (state_after (handle e) st).
Proof.
  intros [Hsid Huuid]. destruct e as [sid | sid | sid data | sid data]; simpl.
  - by rewrite handle_state_connect.
  - rewrite disconnect_state. split; simpl.
    + intros s u [_ H]%lookup_delete_Some. eauto.
    + intros u s H.
      destruct (users_by_sid st !! sid) as [[|c r]|]; eauto.
      apply lookup_delete_Some in H as [_ H]. eauto.
  - destruct (register_state sid data st) as [-> | (u & Hu & ->)]; [done|].
    split; simpl.
    + intros s v [[_ <-] | [_ H]]%lookup_insert_Some; eauto.
    + intros v s [[<- _] | [_ H]]%lookup_insert_Some; eauto.
  - by rewrite message_state.
Qed.

Lemma reachable_identities_valid st : reachable st -> identities_valid st.
Proof.
  induction 1 as [|st e _ IH].
  - split; intros ? ? H; simpl in H; by rewrite lookup_empty in H.
  - by apply identities_valid_step.
Qed.

Lemma reachable_identity_truthy st sid u :
  reachable st -> users_by_sid st !! sid = Some u -> Py.str_truthy u = true.
Proof.
  intros [H _]%reachable_identities_valid Hu. eauto using valid_uuid_truthy.
Qed.

(** ** The registry operations *)

Lemma registry_register_maps conn identity st :
  registry_register conn identity st
  = {| users_by_sid := <[conn := identity]> (users_by_sid st);
       users_by_uuid := <[identity := conn]> (users_by_uuid st) |}.
Proof. reflexivity. Qed.

(** On a payload with a valid uuid, the handler performs exactly the two
    assignments. *)
Lemma register_is_registry_register sid kvs u st :
  Py.assoc "uuid" kvs = Some (VStr u) ->
  is_valid_uuid u = true ->
  state_after (register sid (VDict kvs)) st = registry_register sid u st.
Proof.
  intros Hu Hv. unfold state_after at 1. by rewrite (register_run_valid _ _ _ _ Hu Hv).
Qed.

(** The two assignments touch no other key: an entry of another
    connection, or of another identity, stays as it was. *)
Lemma registry_register_frame conn identity st :
  (forall conn', conn' <> conn ->
     users_by_sid (registry_register conn identity st) !! conn'
     = users_by_sid st !! conn') /\
  (forall identity', identity' <> identity ->
     users_by_uuid (registry_register conn identity st) !! identity'
     = users_by_uuid st !! identity').
Proof.
  rewrite registry_register_maps. simpl.
  split; intros k Hk; by rewrite lookup_insert_ne.
Qed.

(** C1: [register] writes the two entries for [conn] and [identity] and
    removes nothing.  After A and then B registered the same identity, the
    displaced connection A still resolves to that identity (not to
    NotFound); after A registered a second identity, the first identity
    still resolves to A (not to Offline). *)
Theorem register_keeps_displaced_bindings :
  lookup_identity_of (run empty_registry displaced_run) "A" = Identity uuid_1 /\
  lookup_connection_of (run empty_registry displaced_run) uuid_1 = Connection "B" /\
  lookup_connection_of (run empty_registry rehomed_run) uuid_1 = Connection "A" /\
  lookup_identity_of (run empty_registry rehomed_run) "A" = Identity uuid_2.
Proof. vm_compute. repeat split. Qed.

(** C2: the registry reached when A and then B register the same identity
    is not a bijection: [users_by_sid] still maps A to the identity while
    [users_by_uuid] maps the identity to B. *)
Theorem reregistration_breaks_bijection :
  reachable (run empty_registry displaced_run) /\
  users_by_sid (run empty_registry displaced_run) !! "A" = Some uuid_1 /\
  users_by_uuid (run empty_registry displaced_run) !! uuid_1 = Some "B" /\
  ~ registry_bijection (run empty_registry displaced_run).
Proof.
  assert (HA : users_by_sid (run empty_registry displaced_run) !! "A" = Some uuid_1)
    by (vm_compute; reflexivity).
  assert (HB : users_by_uuid (run empty_registry displaced_run) !! uuid_1 = Some "B")
    by (vm_compute; reflexivity).
  split; [apply reachable_run; constructor|].
  split; [exact HA|]. split; [exact HB|].
  intros Hbij. apply Hbij in HA. rewrite HA in HB. discriminate.
Qed.

(** C3: right after a successful [register] of a connection under a valid
    identity, the connection resolves to that identity and the identity
    resolves to the connection. *)
Theorem register_then_lookup st conn kvs identity :
  Py.str_truthy conn = true ->
  Py.assoc "uuid" kvs = Some (VStr identity) ->
  is_valid_uuid identity = true ->
  outcome (register conn (VDict kvs)) st = Ok tt /\
  lookup_identity_of (state_after (register conn (VDict kvs)) st) conn
  = Identity identity /\
  lookup_connection_of (state_after (register conn (VDict kvs)) st) identity
  = Connection conn.
Proof.
  intros Hconn Hu Hv. unfold outcome, state_after.
  rewrite (register_run_valid _ _ _ _ Hu Hv). simpl.
  unfold lookup_identity_of, lookup_connection_of. simpl.
  rewrite !lookup_insert_eq.
  apply valid_uuid_truthy in Hv.
  destruct identity; [discriminate|]. destruct conn; [discriminate|]. done.
Qed.

Lemma register_then_lookup_witness :
  outcome (register "A" (register_payload (VStr uuid_1))) empty_registry = Ok tt /\
  lookup_identity_of
    (state_after (register "A" (register_payload (VStr uuid_1))) empty_registry) "A"
  = Identity uuid_1 /\
  lookup_connection_of
    (state_after (register "A" (register_payload (VStr uuid_1))) empty_registry) uuid_1
  = Connection "A".
Proof.
  apply (register_then_lookup empty_registry "A" _ uuid_1); vm_compute; reflexivity.
Defined.

(** C4: [disconnect] never raises and emits nothing.  For a connection
    without an entry in [users_by_sid] it leaves the registry as it is; for
    a connection registered under [u] it deletes the connection's entry and
    the entry of [u], so that afterwards the connection resolves to
    NotFound and [u] to Offline. *)
Theorem disconnect_removes_binding st conn :
  (users_by_sid st !! conn = None -> disconnect conn st = (Ok tt, st, nil)) /\
  (forall u, reachable st -> users_by_sid st !! conn = Some u ->
     disconnect conn st
     = (Ok tt,
        {| users_by_sid := delete conn (users_by_sid st);
           users_by_uuid := delete u (users_by_uuid st) |},
        nil) /\
     lookup_identity_of (state_after (disconnect conn) st) conn = NotFound /\
     lookup_connection_of (state_after (disconnect conn) st) u = Offline).
Proof.
  split.
  - intros Hnone. rewrite disconnect_run, Hnone, delete_id by done.
    by rewrite registry_eta.
  - intros u Hreach Hu.
    pose proof (reachable_identity_truthy _ _ _ Hreach Hu) as Ht.
    unfold state_after. rewrite disconnect_run, Hu.
    destruct u as [|c r]; [discriminate|]. simpl.
    unfold lookup_identity_of, lookup_connection_of. simpl.
    by rewrite !lookup_delete_eq.
Qed.

Lemma disconnect_removes_binding_witness :
  disconnect "C" (run empty_registry two_peers_run)
  = (Ok tt, run empty_registry two_peers_run, nil) /\
  lookup_identity_of
    (state_after (disconnect "A") (run empty_registry two_peers_run)) "A" = NotFound /\
  lookup_connection_of
    (state_after (disconnect "A") (run empty_registry two_peers_run)) uuid_1 = Offline.
Proof.
  split.
  - apply (disconnect_removes_binding (run empty_registry two_peers_run) "C").
    vm_compute. reflexivity.
  - apply (disconnect_removes_binding (run empty_registry two_peers_run) "A").
    + apply reachable_run. constructor.
    + vm_compute. reflexivity.
Defined.
(** ** The register handler and the validator *)

Lemma UUID_str_raises s e : Py.UUID (VStr s) = Raise e -> e = ValueError.
Proof.
  simpl. unfold Py.UUID_of_hex, Py.int16.
  destruct (negb _); [congruence|].
  destruct (Py.parse_int16 _) as [v|]; [|congruence].
  destruct (negb _); congruence.
Qed.

(** C5: a uuid value that is neither a str nor None (a JSON number,
    boolean, list or object) makes [uuid.UUID] raise AttributeError, which
    [except (ValueError, TypeError)] does not catch: the handler ends with
    the exception and nothing is emitted to the sender.  The registry is
    unchanged. *)
Theorem register_non_str_uuid_uncaught sid st kvs u :
  Py.assoc "uuid" kvs = Some u ->
  is_str_or_None u = false ->
  register sid (VDict kvs) st = (Raise AttributeError, st, nil).
Proof.
  intros Hu Hty. apply (register_run_uncaught _ _ _ u); try done.
  by destruct u.
Qed.

Lemma register_non_str_uuid_uncaught_witness :
  register "A" (register_payload (VInt 123)) empty_registry
  = (Raise AttributeError, empty_registry, nil).
Proof.
  apply (register_non_str_uuid_uncaught "A" empty_registry _ (VInt 123));
    reflexivity.
Defined.

(** The parts of the register protocol that hold: a payload without the
    field, and a uuid that the parser rejects with ValueError or
    TypeError. *)
Lemma register_uuid_required sid st kvs :
  Py.assoc "uuid" kvs = None ->
  register sid (VDict kvs) st
  = (Ok tt, st, Emit "error" (message_dict "uuid is required") sid :: nil).
Proof.
  intros H. apply register_run_missing.
  destruct kvs as [|kv kvs]; [by left|right]. unfold Py.contains. by rewrite H.
Qed.

Lemma register_no_payload sid st :
  register sid VNone st
  = (Ok tt, st, Emit "error" (message_dict "uuid is required") sid :: nil).
Proof. reflexivity. Qed.

Lemma register_invalid_str sid st kvs u :
  Py.assoc "uuid" kvs = Some (VStr u) ->
  is_valid_uuid u = false ->
  register sid (VDict kvs) st
  = (Ok tt, st, Emit "error" (message_dict "Invalid uuid") sid :: nil).
Proof.
  intros Hu Hv. unfold is_valid_uuid in Hv.
  destruct (Py.UUID (VStr u)) as [n|e] eqn:E; [discriminate|].
  apply (register_run_invalid _ _ _ _ e Hu E). left. by eapply UUID_str_raises.
Qed.

Lemma register_invalid_None sid st kvs :
  Py.assoc "uuid" kvs = Some VNone ->
  register sid (VDict kvs) st
  = (Ok tt, st, Emit "error" (message_dict "Invalid uuid") sid :: nil).
Proof.
  intros Hu. apply (register_run_invalid _ _ _ _ TypeError Hu); auto.
Qed.

Lemma register_accepts sid st kvs u :
  Py.assoc "uuid" kvs = Some (VStr u) ->
  is_valid_uuid u = true ->
  register sid (VDict kvs) st
  = (Ok tt, registry_register sid u st,
     Emit "registered" (register_payload (VStr u)) sid :: nil).
Proof. intros Hu Hv. by rewrite (register_run_valid _ _ _ _ Hu Hv). Qed.

(** In particular every canonical text is accepted and stored as it was
    written. *)
Lemma register_accepts_canonical sid st kvs u :
  Py.assoc "uuid" kvs = Some (VStr u) ->
  canonical_text u = true ->
  register sid (VDict kvs) st
  = (Ok tt, registry_register sid u st,
     Emit "registered" (register_payload (VStr u)) sid :: nil).
Proof.
  intros Hu Hc. by rewrite (register_run_valid _ _ _ _ Hu (canonical_valid _ Hc)).
Qed.

(** ** The message handler *)

Lemma message_fields_required sid st data :
  Py.truthy data = false \/
  Py.contains data "to_uuid" = Ok false \/
  (Py.contains data "to_uuid" = Ok true /\ Py.contains data "text" = Ok false) ->
  message sid data st
  = (Ok tt, st,
     Emit "error" (message_dict "to_uuid and text are required") sid :: nil).
Proof.
  unfold_M. destruct (Py.truthy data); cbn; [|reflexivity].
  intros [?|[-> | [-> ->]]]; [discriminate | reflexivity..].
Qed.

(** A list or an object as [to_uuid] cannot be hashed: a registered
    sender's call ends with TypeError. *)
Lemma message_unhashable_target sid st kvs to_uuid text from_uuid :
  Py.assoc "to_uuid" kvs = Some to_uuid ->
  Py.assoc "text" kvs = Some text ->
  lookup_identity_of st sid = Identity from_uuid ->
  PyKey.hash to_uuid = Raise TypeError ->
  message sid (VDict kvs) st = (Raise TypeError, st, nil).
Proof.
  intros Hto Htext Hfrom Hhash. unfold lookup_identity_of in Hfrom.
  unfold_M. rewrite (assoc_truthy _ _ _ Hto). cbn. rewrite Hto, Htext. cbn.
  destruct (users_by_sid st !! sid) as [[|c u]|]; try discriminate. cbn.
  by rewrite Hhash.
Qed.

(** C6: a message from a connection without an identity gets the error
    "Call register with your uuid first"; that single emit goes to the
    sender, and the registry is unchanged. *)
Theorem message_sender_unregistered st sid kvs to_uuid text :
  Py.assoc "to_uuid" kvs = Some to_uuid ->
  Py.assoc "text" kvs = Some text ->
  lookup_identity_of st sid = NotFound ->
  message sid (VDict kvs) st
  = (Ok tt, st,
     Emit "error" (message_dict "Call register with your uuid first") sid :: nil).
Proof. apply message_run_unregistered. Qed.

Lemma message_sender_unregistered_witness :
  message "C" (message_payload (VStr uuid_2) (VStr "hi"))
    (run empty_registry two_peers_run)
  = (Ok tt, run empty_registry two_peers_run,
     Emit "error" (message_dict "Call register with your uuid first") "C" :: nil).
Proof.
  apply (message_sender_unregistered _ "C" _ (VStr uuid_2) (VStr "hi"));
    vm_compute; reflexivity.
Defined.

(** C7: a message from a registered sender to an identity that resolves
    to Offline gets the error "Peer <to_uuid> is not online"; that single
    emit goes to the sender, and the registry is unchanged. *)
Theorem message_target_offline st sid kvs to_uuid text from_uuid :
  Py.assoc "to_uuid" kvs = Some (VStr to_uuid) ->
  Py.assoc "text" kvs = Some text ->
  lookup_identity_of st sid = Identity from_uuid ->
  lookup_connection_of st to_uuid = Offline ->
  message sid (VDict kvs) st
  = (Ok tt, st,
     Emit "error"
       (message_dict ("Peer " +:+ to_uuid +:+ " is not online")) sid :: nil).
Proof. apply message_run_offline. Qed.

Lemma message_target_offline_witness :
  message "A" (message_payload (VStr "uuid-Z") (VStr "hi"))
    (run empty_registry two_peers_run)
  = (Ok tt, run empty_registry two_peers_run,
     Emit "error" (message_dict "Peer uuid-Z is not online") "A" :: nil).
Proof.
  apply (message_target_offline _ "A" _ "uuid-Z" (VStr "hi") uuid_1);
    vm_compute; reflexivity.
Defined.

(** C8: a message from a sender registered as [from_uuid] to an identity
    that resolves to a connection emits, in this order, "message" with
    the payload {from_uuid, text} to that connection, the text being the
    value received, and "message_sent" with {to_uuid} to the sender.  The
    registry is unchanged. *)
Theorem message_delivered st sid kvs to_uuid text from_uuid target :
  Py.assoc "to_uuid" kvs = Some (VStr to_uuid) ->
  Py.assoc "text" kvs = Some text ->
  lookup_identity_of st sid = Identity from_uuid ->
  lookup_connection_of st to_uuid = Connection target ->
  message sid (VDict kvs) st
  = (Ok tt, st,
     Emit "message"
       (VDict (("from_uuid", VStr from_uuid) :: ("text", text) :: nil)) target
     :: Emit "message_sent" (VDict (("to_uuid", VStr to_uuid) :: nil)) sid
     :: nil).
Proof. apply message_run_delivered. Qed.

Lemma message_delivered_witness :
  message "A" (message_payload (VStr uuid_2) (VStr "hi"))
    (run empty_registry two_peers_run)
  = (Ok tt, run empty_registry two_peers_run,
     Emit "message"
       (VDict (("from_uuid", VStr uuid_1) :: ("text", VStr "hi") :: nil)) "B"
     :: Emit "message_sent" (VDict (("to_uuid", VStr uuid_2) :: nil)) "A"
     :: nil).
Proof.
  apply (message_delivered _ "A" _ uuid_2 (VStr "hi") uuid_1 "B");
    vm_compute; reflexivity.
Defined.

(** Registering [u] leaves every other key of [users_by_uuid] as it
    was. *)
Lemma register_other_key_offline conn u u' st :
  u <> u' ->
  lookup_connection_of st u' = Offline ->
  lookup_connection_of (registry_register conn u st) u' = Offline.
Proof.
  intros Hne Hoff. unfold lookup_connection_of in *.
  rewrite registry_register_maps. simpl. by rewrite lookup_insert_ne.
Qed.




(** The spellings the library accepts for one canonical text: when the
    peer registered the canonical text, a message addressed to the text
    without hyphens, in braces or with the URN prefix is answered with
    the error, as long as nobody registered that very string. *)
Lemma other_spelling_is_offline st peer sender u u' text from_uuid :
  canonical_text u = true ->
  u' = drop_hyphens u \/ u' = in_braces u \/ u' = as_urn u ->
  lookup_connection_of st u' = Offline ->
  lookup_identity_of (registry_register peer u st) sender = Identity from_uuid ->
  Py.UUID (VStr u') = Py.UUID (VStr u) /\
  message sender (message_payload (VStr u') text) (registry_register peer u st)
  = (Ok tt, registry_register peer u st,
     Emit "error" (message_dict ("Peer " +:+ u' +:+ " is not online")) sender
     :: nil).
Proof.
  intros Hc Hu' Hoff Hfrom.
  destruct (spellings_same_value _ Hc) as (_ & Hd & Hb & Hurn).
  destruct (spellings_differ _ Hc) as (Hd' & Hb' & Hurn').
  split; [by destruct Hu' as [-> | [-> | ->]]|].
  apply (message_run_offline _ _ u' text from_uuid); try done.
  apply register_other_key_offline; [|done].
  destruct Hu' as [-> | [-> | ->]]; congruence.
Qed.

(** C10: in a reachable registry where [users_by_sid] still maps A to [u]
    while [users_by_uuid] maps [u] to another connection B, the disconnect
    of A deletes A's entry and the entry of [u]: afterwards [u] resolves to
    Offline, while B's own entry in [users_by_sid] is what it was. *)
Theorem stale_disconnect_strips_holder st A B u :
  reachable st ->
  A <> B ->
  users_by_sid st !! A = Some u ->
  users_by_uuid st !! u = Some B ->
  users_by_sid (state_after (disconnect A) st) !! A = None /\
  users_by_uuid (state_after (disconnect A) st) !! u = None /\
  lookup_connection_of (state_after (disconnect A) st) u = Offline /\
  users_by_sid (state_after (disconnect A) st) !! B = users_by_sid st !! B /\
  lookup_identity_of (state_after (disconnect A) st) B = lookup_identity_of st B.
Proof.
  intros Hreach Hne HA HuB.
  pose proof (reachable_identity_truthy _ _ _ Hreach HA) as Ht.
  rewrite disconnect_state, HA. destruct u as [|c r]; [discriminate|].
  unfold lookup_connection_of, lookup_identity_of. simpl.
  by rewrite !lookup_delete_eq, !lookup_delete_ne.
Qed.

Lemma stale_disconnect_strips_holder_witness :
  lookup_connection_of (run empty_registry displaced_run) uuid_1 = Connection "B" /\
  lookup_connection_of
    (state_after (disconnect "A") (run empty_registry displaced_run)) uuid_1
  = Offline /\
  lookup_identity_of
    (state_after (disconnect "A") (run empty_registry displaced_run)) "B"
  = Identity uuid_1.
Proof.
  split; [vm_compute; reflexivity|].
  destruct (stale_disconnect_strips_holder
              (run empty_registry displaced_run) "A" "B" uuid_1)
    as (_ & _ & Hoff & _ & HB).
  - apply reachable_run. constructor.
  - discriminate.
  - vm_compute. reflexivity.
  - vm_compute. reflexivity.
  - split; [exact Hoff|]. rewrite HB. vm_compute. reflexivity.
Defined.

(** * Further properties of the handlers *)

(** ** message: payload checks and routing *)

(** X1: a message whose payload is empty or lacks [to_uuid] or [text] is
    answered with "to_uuid and text are required", whether or not the
    sender is registered; the registry is unchanged. *)
Theorem message_requires_both_fields sid st data :
  Py.truthy data = false \/
  (exists kvs, data = VDict kvs /\
     (Py.assoc "to_uuid" kvs = None \/ Py.assoc "text" kvs = None)) ->
  message sid data st
  = (Ok tt, st,
     Emit "error" (message_dict "to_uuid and text are required") sid :: nil).
Proof.
  intros [Hf | (kvs & -> & Hk)]; apply message_fields_required; [by left|].
  destruct (Py.truthy (VDict kvs)) eqn:Ht; [right | by left].
  unfold Py.contains.
  destruct (Py.assoc "to_uuid" kvs) as [t|]; [right | by left].
  destruct Hk as [Hk | ->]; [discriminate | done].
Qed.

Lemma message_requires_both_fields_witness :
  message "A" (VDict (("to_uuid", VStr uuid_2) :: nil)) empty_registry
  = (Ok tt, empty_registry,
     Emit "error" (message_dict "to_uuid and text are required") "A" :: nil).
Proof.
  apply message_requires_both_fields. right.
  exists (("to_uuid", VStr uuid_2) :: nil). split; [reflexivity|]. right. reflexivity.
Defined.

(** X2: [message] never changes the registry, whatever the payload and
    whether it returns or raises. *)
Theorem message_never_changes_registry sid data st :
  state_after (message sid data) st = st.
Proof. apply message_state. Qed.

(** X3: whatever the payload, every emit of [message] goes to the sender,
    except a "message" event: that one goes to the connection that
    [users_by_uuid] holds for the [to_uuid] of the payload, and its
    [from_uuid] is the identity that [users_by_sid] holds for the sender,
    not a value taken from the payload. *)
Theorem message_emits_by_registry sid data st e :
  In e (emitted (message sid data) st) ->
  (event e <> "message" /\ to e = sid) \/
  (exists from_uuid to_uuid text,
     users_by_sid st !! sid = Some from_uuid /\
     Py.getitem data "to_uuid" = Ok (VStr to_uuid) /\
     Py.getitem data "text" = Ok text /\
     users_by_uuid st !! to_uuid = Some (to e) /\
     e = Emit "message"
           (VDict (("from_uuid", VStr from_uuid) :: ("text", text) :: nil))
           (to e)).
Proof.
  unfold_M. destruct (Py.truthy data); cbn; [|intros [<-|[]]; by left].
  destruct (Py.contains data "to_uuid") as [[]|]; cbn;
    try (intros [<-|[]]; by left); try done.
  destruct (Py.contains data "text") as [[]|]; cbn;
    try (intros [<-|[]]; by left); try done.
  destruct (Py.getitem data "to_uuid") as [to_uuid|]; cbn; try done.
  destruct (Py.getitem data "text") as [text|]; cbn; try done.
  destruct (users_by_sid st !! sid) as [[|c from_uuid]|] eqn:Hfrom; cbn;
    try (intros [<-|[]]; by left).
  destruct (PyKey.hash to_uuid) as [k|] eqn:Hk; cbn; try done.
  destruct (PyKey.lookup (users_by_uuid st) k) as [[|c' target]|] eqn:Htarget;
    cbn; try (intros [<-|[]]; by left).
  intros [<-|[<-|[]]]; [right | by left].
  destruct k as [| | |to]; try discriminate Htarget.
  destruct to_uuid; try discriminate Hk. injection Hk as ->.
  exists (String c from_uuid), to, text. done.
Qed.

Lemma message_emits_by_registry_witness :
  (exists from_uuid to_uuid text,
     users_by_sid (run empty_registry two_peers_run) !! "A" = Some from_uuid /\
     Py.getitem
       (VDict (("from_uuid", VStr uuid_2) :: ("to_uuid", VStr uuid_2)
               :: ("text", VStr "hi") :: nil)) "to_uuid" = Ok (VStr to_uuid) /\
     Py.getitem
       (VDict (("from_uuid", VStr uuid_2) :: ("to_uuid", VStr uuid_2)
               :: ("text", VStr "hi") :: nil)) "text" = Ok text /\
     users_by_uuid (run empty_registry two_peers_run) !! to_uuid = Some "B" /\
     Emit "message"
       (VDict (("from_uuid", VStr uuid_1) :: ("text", VStr "hi") :: nil)) "B"
     = Emit "message"
         (VDict (("from_uuid", VStr from_uuid) :: ("text", text) :: nil)) "B").
Proof.
  destruct (message_emits_by_registry "A"
              (VDict (("from_uuid", VStr uuid_2) :: ("to_uuid", VStr uuid_2)
                      :: ("text", VStr "hi") :: nil))
              (run empty_registry two_peers_run)
              (Emit "message"
                 (VDict (("from_uuid", VStr uuid_1) :: ("text", VStr "hi") :: nil))
                 "B")) as [[Hne _] | H].
  - vm_compute. left. reflexivity.
  - exfalso. apply Hne. reflexivity.
  - exact H.
Defined.

(** X4: a list or an object as [to_uuid] cannot be hashed by
    [users_by_uuid.get]: for a registered sender the handler ends with
    TypeError, emits nothing and leaves the registry as it is. *)
Theorem message_container_target_raises sid st kvs to_uuid text from_uuid :
  Py.assoc "to_uuid" kvs = Some to_uuid ->
  Py.assoc "text" kvs = Some text ->
  lookup_identity_of st sid = Identity from_uuid ->
  (exists l, to_uuid = VList l) \/ (exists d, to_uuid = VDict d) ->
  message sid (VDict kvs) st = (Raise TypeError, st, nil).
Proof.
  intros Hto Htext Hfrom Hc.
  apply (message_unhashable_target _ _ _ to_uuid text from_uuid); try done.
  by destruct Hc as [[l ->] | [d ->]].
Qed.

Lemma message_container_target_raises_witness :
  message "A" (message_payload (VList (VStr uuid_2 :: nil)) (VStr "hi"))
    (run empty_registry two_peers_run)
  = (Raise TypeError, run empty_registry two_peers_run, nil).
Proof.
  apply (message_container_target_raises _ _ _
           (VList (VStr uuid_2 :: nil)) (VStr "hi") uuid_1);
    try (vm_compute; reflexivity).
  left. by exists (VStr uuid_2 :: nil).
Defined.

(** X5: a [to_uuid] that is None, a boolean or a number is never a key of
    [users_by_uuid]: a registered sender always gets "Peer <to_uuid> is
    not online", with the value formatted as [str] formats it. *)
Theorem message_scalar_target_offline sid st kvs to_uuid k text from_uuid :
  Py.assoc "to_uuid" kvs = Some to_uuid ->
  Py.assoc "text" kvs = Some text ->
  lookup_identity_of st sid = Identity from_uuid ->
  PyKey.hash to_uuid = Ok k ->
  (forall s, to_uuid <> VStr s) ->
  message sid (VDict kvs) st
  = (Ok tt, st,
     Emit "error"
       (message_dict ("Peer " +:+ PyKey.format k +:+ " is not online")) sid
     :: nil).
Proof.
  intros Hto Htext Hfrom Hk Hns. unfold lookup_identity_of in Hfrom.
  unfold_M. rewrite (assoc_truthy _ _ _ Hto). cbn. rewrite Hto, Htext. cbn.
  destruct (users_by_sid st !! sid) as [[|c u]|]; try discriminate. cbn.
  rewrite Hk. cbn.
  destruct to_uuid; simpl in Hk; simplify_eq; try reflexivity.
  by destruct (Hns s).
Qed.

Lemma message_scalar_target_offline_witness :
  message "A" (message_payload (VInt (-5)) (VStr "hi"))
    (run empty_registry two_peers_run)
  = (Ok tt, run empty_registry two_peers_run,
     Emit "error" (message_dict "Peer -5 is not online") "A" :: nil).
Proof.
  apply (message_scalar_target_offline _ _ _ (VInt (-5)) (KInt (-5))
           (VStr "hi") uuid_1); try (vm_compute; reflexivity).
  intros s. discriminate.
Defined.

(** ** register: payload checks, validation, frame *)

(** X6: a payload that is not an object (a string, a list, a number, a
    boolean) never registers.  When it is true and the test ["uuid" in
    data] succeeds or cannot be made, the handler ends with an uncaught
    TypeError and emits nothing; otherwise the answer is "uuid is
    required". *)
Theorem register_non_object_payload sid st data :
  (forall kvs, data <> VDict kvs) ->
  register sid data st
  = if Py.truthy data
    then match Py.contains data "uuid" with
         | Ok false =>
             (Ok tt, st,
              Emit "error" (message_dict "uuid is required") sid :: nil)
         | _ => (Raise TypeError, st, nil)
         end
    else (Ok tt, st, Emit "error" (message_dict "uuid is required") sid :: nil).
Proof.
  intros Hnd. unfold_M.
  destruct data as [| b | z | s | l | kvs]; try by destruct (Hnd kvs).
  - reflexivity.
  - by destruct b.
  - cbn. by destruct (z =? 0).
  - destruct s as [|c s]; [reflexivity|].
    unfold Py.truthy, Py.str_truthy, Py.contains, Py.getitem, negb.
    by destruct (Py.substring_of "uuid" (String c s)).
  - destruct l as [|v l]; [reflexivity|].
    unfold Py.truthy, Py.contains, Py.getitem, negb.
    by destruct (existsb (Py.eq_str "uuid") (v :: l)).
Qed.

Lemma register_non_object_payload_witness :
  register "A" (VStr "my uuid is 11111111-1111-1111-1111-111111111111")
    empty_registry
  = (Raise TypeError, empty_registry, nil).
Proof.
  rewrite (register_non_object_payload "A" empty_registry
             (VStr "my uuid is 11111111-1111-1111-1111-111111111111"));
    [vm_compute; reflexivity | discriminate].
Defined.

(** X7: an empty payload (None, an empty object, an empty string or list,
    zero, false) and an object without the key [uuid] are answered with
    "uuid is required"; the registry is unchanged. *)
Theorem register_without_uuid_field sid st data :
  Py.truthy data = false \/
  (exists kvs, data = VDict kvs /\ Py.assoc "uuid" kvs = None) ->
  register sid data st
  = (Ok tt, st, Emit "error" (message_dict "uuid is required") sid :: nil).
Proof.
  intros [Hf | (kvs & -> & Hk)]; apply register_run_missing; [by left|].
  destruct (Py.truthy (VDict kvs)) eqn:Ht; [right | by left].
  unfold Py.contains. by rewrite Hk.
Qed.

Lemma register_without_uuid_field_witness :
  register "A" (VDict (("id", VStr uuid_1) :: nil)) empty_registry
  = (Ok tt, empty_registry,
     Emit "error" (message_dict "uuid is required") "A" :: nil).
Proof.
  apply register_without_uuid_field. right.
  exists (("id", VStr uuid_1) :: nil). split; reflexivity.
Defined.

(** X8: a [uuid] that is None, or a str that [uuid.UUID] does not parse,
    is answered with "Invalid uuid"; the registry is unchanged. *)
Theorem register_rejected_uuid sid st kvs u :
  Py.assoc "uuid" kvs = Some u ->
  u = VNone \/ (exists s, u = VStr s /\ is_valid_uuid s = false) ->
  register sid (VDict kvs) st
  = (Ok tt, st, Emit "error" (message_dict "Invalid uuid") sid :: nil).
Proof.
  intros Hu [-> | (s & -> & Hs)].
  - apply (register_run_invalid _ _ _ _ TypeError Hu); auto.
  - unfold is_valid_uuid in Hs.
    destruct (Py.UUID (VStr s)) as [n|e] eqn:E; [discriminate|].
    apply (register_run_invalid _ _ _ _ e Hu E). left.
    by apply (UUID_str_raises s).
Qed.

Lemma register_rejected_uuid_witness :
  register "A" (register_payload (VStr "not-a-uuid")) empty_registry
  = (Ok tt, empty_registry,
     Emit "error" (message_dict "Invalid uuid") "A" :: nil).
Proof.
  apply (register_rejected_uuid "A" empty_registry _ (VStr "not-a-uuid"));
    [reflexivity|].
  right. exists "not-a-uuid". split; [reflexivity | vm_compute; reflexivity].
Defined.

Lemma remove_all_from_length old skip s :
  (String.length (Py.remove_all_from old skip s) <= String.length s)%nat.
Proof.
  revert skip. induction s as [|c r IH]; intros skip; [done|].
  cbn [Py.remove_all_from String.length]. destruct skip as [|k].
  - destruct (String.prefix old (String c r)).
    + specialize (IH (pred (String.length old))). lia.
    + cbn [String.length]. specialize (IH O). lia.
  - specialize (IH k). lia.
Qed.

Lemma lstrip_length chars s :
  (String.length (Py.lstrip chars s) <= String.length s)%nat.
Proof.
  induction s as [|c r IH]; [done|]. cbn [Py.lstrip].
  destruct (Py.char_in c chars); cbn [String.length]; lia.
Qed.

Lemma rstrip_length chars s :
  (String.length (Py.rstrip chars s) <= String.length s)%nat.
Proof.
  induction s as [|c r IH]; [done|]. cbn [Py.rstrip].
  destruct (Py.rstrip chars r) as [|c' r'].
  - destruct (Py.char_in c chars); cbn [String.length]; lia.
  - cbn [String.length] in *. lia.
Qed.

Lemma short_text_invalid s :
  (String.length s < 32)%nat -> is_valid_uuid s = false.
Proof.
  intros Hlen. unfold is_valid_uuid. simpl. unfold Py.UUID_of_hex.
  set (h := Py.remove_all "-" _).
  assert (Hh : (String.length h <= String.length s)%nat).
  { unfold h, Py.remove_all, Py.strip.
    etrans; [apply remove_all_from_length|].
    etrans; [apply rstrip_length|].
    etrans; [apply lstrip_length|].
    etrans; [apply remove_all_from_length|].
    apply remove_all_from_length. }
  destruct (String.length h =? 32)%nat eqn:E; [|reflexivity].
  apply Nat.eqb_eq in E. lia.
Qed.

(** X9: no text of fewer than 32 characters is accepted as a uuid, since
    the parser only removes characters before it counts 32 digits: such a
    register is answered with "Invalid uuid". *)
Theorem register_rejects_short_text sid st kvs u :
  Py.assoc "uuid" kvs = Some (VStr u) ->
  (String.length u < 32)%nat ->
  register sid (VDict kvs) st
  = (Ok tt, st, Emit "error" (message_dict "Invalid uuid") sid :: nil).
Proof.
  intros Hu Hlen. apply (register_invalid_str _ _ _ u Hu).
  by apply short_text_invalid.
Qed.

Lemma register_rejects_short_text_witness :
  register "A" (register_payload (VStr "uuid-A")) empty_registry
  = (Ok tt, empty_registry,
     Emit "error" (message_dict "Invalid uuid") "A" :: nil).
Proof.
  apply (register_rejects_short_text "A" empty_registry _ "uuid-A");
    [reflexivity | simpl; lia].
Defined.

(** X10: a uuid in the canonical form, groups of 8, 4, 4, 4 and 12
    hexadecimal digits of either case, is always accepted: the two
    dictionaries get the text as it was written, and the sender gets
    "registered" with the same text. *)
Theorem register_canonical_text sid st kvs u :
  Py.assoc "uuid" kvs = Some (VStr u) ->
  canonical_text u = true ->
  register sid (VDict kvs) st
  = (Ok tt,
     {| users_by_sid := <[sid := u]> (users_by_sid st);
        users_by_uuid := <[u := sid]> (users_by_uuid st) |},
     Emit "registered" (VDict (("uuid", VStr u) :: nil)) sid :: nil).
Proof.
  intros Hu Hc. apply register_run_valid; [done|]. by apply canonical_valid.
Qed.

Lemma register_canonical_text_witness :
  register "A" (register_payload (VStr uuid_upper)) empty_registry
  = (Ok tt,
     {| users_by_sid := <["A" := uuid_upper]> ∅;
        users_by_uuid := <[uuid_upper := "A"]> ∅ |},
     Emit "registered" (VDict (("uuid", VStr uuid_upper) :: nil)) "A" :: nil).
Proof.
  apply (register_canonical_text "A" empty_registry _ uuid_upper);
    vm_compute; reflexivity.
Defined.

(** What [register] does to the registry, with the uuid it read. *)
Lemma register_state_uuid sid data st :
  state_after (register sid data) st = st \/
  exists u, Py.getitem data "uuid" = Ok (VStr u) /\ is_valid_uuid u = true /\
    state_after (register sid data) st
    = {| users_by_sid := <[sid := u]> (users_by_sid st);
         users_by_uuid := <[u := sid]> (users_by_uuid st) |}.
Proof.
  unfold_M. destruct (Py.truthy data); cbn; [|by left].
  destruct (Py.contains data "uuid") as [[]|]; cbn; try by left.
  destruct (Py.getitem data "uuid") as [u|]; cbn; try by left.
  destruct (Py.UUID u) as [n|e] eqn:E.
  - destruct (UUID_Ok_str _ _ E) as (s & -> & _). cbn. right. exists s.
    split; [done|]. split; [|reflexivity]. unfold is_valid_uuid. by rewrite E.
  - destruct e; by left.
Qed.

(** X11: whatever the payload, [register] changes at most the entry of
    the calling connection in [users_by_sid] and the entry of the uuid of
    the payload in [users_by_uuid]; every other entry, in particular the
    one of a connection that held the uuid before, stays. *)
Theorem register_touches_two_entries sid data st :
  (forall conn, conn <> sid ->
     users_by_sid (state_after (register sid data) st) !! conn
     = users_by_sid st !! conn) /\
  (forall u, Py.getitem data "uuid" <> Ok (VStr u) ->
     users_by_uuid (state_after (register sid data) st) !! u
     = users_by_uuid st !! u).
Proof.
  destruct (register_state_uuid sid data st) as [-> | (u & Hu & _ & ->)];
    [done|]. simpl. split.
  - intros conn Hne. by rewrite lookup_insert_ne.
  - intros u' Hne. rewrite lookup_insert_ne; [done|]. congruence.
Qed.

Lemma register_touches_two_entries_witness :
  users_by_sid
    (state_after (register "B" (register_payload (VStr uuid_1)))
       (run empty_registry two_peers_run)) !! "A" = Some uuid_1 /\
  users_by_uuid
    (state_after (register "B" (register_payload (VStr uuid_1)))
       (run empty_registry two_peers_run)) !! uuid_2 = Some "B".
Proof.
  destruct (register_touches_two_entries "B" (register_payload (VStr uuid_1))
              (run empty_registry two_peers_run)) as [H1 H2].
  split.
  - rewrite (H1 "A"); [vm_compute; reflexivity | discriminate].
  - rewrite (H2 uuid_2); [vm_compute; reflexivity | vm_compute; discriminate].
Defined.

(** ** The registry along runs *)

Lemma step_other_sid st e sid :
  ev_sid e <> sid ->
  users_by_sid (state_after (handle e) st) !! sid = users_by_sid st !! sid.
Proof.
  intros Hne. destruct e as [s | s | s data | s data]; simpl in *.
  - done.
  - rewrite disconnect_state. simpl. by rewrite lookup_delete_ne.
  - destruct (register_state_uuid s data st) as [-> | (u & _ & _ & ->)];
      [done|]. simpl. by rewrite lookup_insert_ne.
  - by rewrite message_state.
Qed.

(** X12: the identity that [users_by_sid] holds for a connection is
    changed only by that connection's own events: no sequence of events
    of other connections, whatever their payloads, binds or unbinds
    it. *)
Theorem sender_binding_isolated st es sid :
  Forall (fun e => ev_sid e <> sid) es ->
  users_by_sid (run st es) !! sid = users_by_sid st !! sid /\
  lookup_identity_of (run st es) sid = lookup_identity_of st sid.
Proof.
  intros Hes. assert (H : users_by_sid (run st es) !! sid = users_by_sid st !! sid).
  { revert st. induction Hes as [|e es He _ IH]; intros st; [done|].
    simpl. rewrite IH. by apply step_other_sid. }
  split; [done|]. unfold lookup_identity_of. by rewrite H.
Qed.

Lemma sender_binding_isolated_witness :
  users_by_sid
    (run (run empty_registry two_peers_run)
       (ERegister "B" (register_payload (VStr uuid_1))
        :: EDisconnect "B" :: nil)) !! "A"
  = users_by_sid (run empty_registry two_peers_run) !! "A" /\
  lookup_identity_of
    (run (run empty_registry two_peers_run)
       (ERegister "B" (register_payload (VStr uuid_1))
        :: EDisconnect "B" :: nil)) "A"
  = lookup_identity_of (run empty_registry two_peers_run) "A".
Proof.
  apply (sender_binding_isolated (run empty_registry two_peers_run)
           (ERegister "B" (register_payload (VStr uuid_1))
            :: EDisconnect "B" :: nil) "A").
  repeat constructor; discriminate.
Defined.

(** X13: [disconnect] returns without an emit in every registry, and a
    second disconnect of the same connection changes nothing more. *)
Theorem disconnect_idempotent sid st :
  emitted (disconnect sid) st = nil /\
  outcome (disconnect sid) st = Ok tt /\
  disconnect sid (state_after (disconnect sid) st)
  = (Ok tt, state_after (disconnect sid) st, nil).
Proof.
  unfold emitted, outcome. rewrite disconnect_run. simpl.
  split; [done|]. split; [done|].
  rewrite disconnect_state. rewrite disconnect_run. simpl.
  rewrite lookup_delete_eq. by rewrite delete_id by apply lookup_delete_eq.
Qed.

(** X14: registering a connection under a valid uuid, when neither the
    connection nor the uuid has an entry, and then disconnecting it,
    gives back the registry as it was. *)
Theorem register_disconnect_round_trip st sid kvs u :
  Py.assoc "uuid" kvs = Some (VStr u) ->
  is_valid_uuid u = true ->
  users_by_sid st !! sid = None ->
  users_by_uuid st !! u = None ->
  run st (ERegister sid (VDict kvs) :: EDisconnect sid :: nil) = st.
Proof.
  intros Hu Hv Hsid Huuid. simpl.
  rewrite (register_is_registry_register _ _ _ _ Hu Hv), registry_register_maps.
  rewrite disconnect_state. simpl. rewrite lookup_insert_eq.
  pose proof (valid_uuid_truthy _ Hv) as Ht. destruct u as [|c r]; [done|].
  rewrite !delete_insert_eq, !delete_id by done. apply registry_eta.
Qed.

Lemma register_disconnect_round_trip_witness :
  run (run empty_registry two_peers_run)
    (ERegister "C" (register_payload (VStr uuid_lower)) :: EDisconnect "C" :: nil)
  = run empty_registry two_peers_run.
Proof.
  apply (register_disconnect_round_trip _ "C" _ uuid_lower);
    vm_compute; reflexivity.
Defined.

(** X15: in every registry the server can reach, every identity stored in
    either dictionary is a non-empty str of at least 32 characters that
    [uuid.UUID] parses. *)
Theorem reachable_identities_parse st :
  reachable st ->
  (forall sid u, users_by_sid st !! sid = Some u ->
     is_valid_uuid u = true /\ (32 <= String.length u)%nat) /\
  (forall u sid, users_by_uuid st !! u = Some sid ->
     is_valid_uuid u = true /\ (32 <= String.length u)%nat).
Proof.
  intros [H1 H2]%reachable_identities_valid.
  assert (Hlen : forall u, is_valid_uuid u = true -> (32 <= String.length u)%nat).
  { intros u Hu. destruct (le_lt_dec 32 (String.length u)) as [|Hlt]; [done|].
    rewrite (short_text_invalid _ Hlt) in Hu. discriminate. }
  split; intros ? ? H; split; eauto.
Qed.

Lemma reachable_identities_parse_witness :
  (forall sid u,
     users_by_sid (run empty_registry displaced_run) !! sid = Some u ->
     is_valid_uuid u = true /\ (32 <= String.length u)%nat) /\
  (forall u sid,
     users_by_uuid (run empty_registry displaced_run) !! u = Some sid ->
     is_valid_uuid u = true /\ (32 <= String.length u)%nat).
Proof.
  apply (reachable_identities_parse (run empty_registry displaced_run)).
  apply reachable_run. constructor.
Defined.

Lemma bijection_insert_fresh st sid u :
  registry_bijection st ->
  users_by_sid st !! sid = None ->
  users_by_uuid st !! u = None ->
  registry_bijection
    {| users_by_sid := <[sid := u]> (users_by_sid st);
       users_by_uuid := <[u := sid]> (users_by_uuid st) |}.
Proof.
  intros Hbij Hsid Hu conn identity. simpl.
  rewrite !lookup_insert_Some. split.
  - intros [[<- <-] | [Hne H]]; [by left|]. right.
    apply Hbij in H. split; [|done]. intros <-. congruence.
  - intros [[<- <-] | [Hne H]]; [by left|]. right.
    apply Hbij in H. split; [|done]. intros <-. congruence.
Qed.

Lemma bijection_delete st sid u :
  registry_bijection st ->
  users_by_sid st !! sid = Some u ->
  registry_bijection
    {| users_by_sid := delete sid (users_by_sid st);
       users_by_uuid := delete u (users_by_uuid st) |}.
Proof.
  intros Hbij Hsid conn identity. simpl.
  pose proof Hsid as Hu. apply Hbij in Hu.
  rewrite !lookup_delete_Some. split.
  - intros [Hne H]. split; [|by apply Hbij]. intros <-.
    apply Hbij in H. congruence.
  - intros [Hne H]. split; [|by apply Hbij]. intros <-.
    apply Hbij in H. congruence.
Qed.

Lemma bijection_step st e :
  identities_valid st ->
  registry_bijection st ->
  fresh_register st e ->
  registry_bijection (state_after (handle e) st).
Proof.
  intros Hvalid Hbij Hfresh. destruct e as [s | s | s data | s data]; simpl in *.
  - done.
  - rewrite disconnect_state.
    destruct (users_by_sid st !! s) as [u|] eqn:Hs.
    + destruct Hvalid as [Hv _]. pose proof (valid_uuid_truthy _ (Hv _ _ Hs)) as Ht.
      destruct u as [|c r]; [done|]. by apply bijection_delete.
    + rewrite delete_id by done. by rewrite registry_eta.
  - destruct (register_state_uuid s data st) as [-> | (u & Hu & _ & ->)]; [done|].
    destruct (Hfresh u Hu) as [[H1 H2] | [H1 H2]].
    + by apply bijection_insert_fresh.
    + rewrite !insert_id by done. by rewrite registry_eta.
  - by rewrite message_state.
Qed.

Lemma disciplined_bijection st es :
  identities_valid st ->
  registry_bijection st ->
  disciplined st es ->
  registry_bijection (run st es).
Proof.
  revert st. induction es as [|e es IH]; intros st Hv Hbij Hd; [done|].
  destruct Hd as [Hf Hd]. simpl. apply IH; [|by apply bijection_step|done].
  by apply identities_valid_step.
Qed.

(** X16: as long as every register event finds its connection and its
    uuid both without an entry, or already bound to each other, the two
    dictionaries stay inverse to each other, through any number of
    connect, register, message and disconnect events. *)
Theorem disciplined_run_bijection es :
  disciplined empty_registry es ->
  registry_bijection (run empty_registry es).
Proof.
  apply disciplined_bijection.
  - apply reachable_identities_valid. constructor.
  - intros conn identity. simpl. by rewrite !lookup_empty.
Qed.

Lemma disciplined_run_bijection_witness :
  registry_bijection (run empty_registry two_peers_run).
Proof.
  apply (disciplined_run_bijection two_peers_run).
  simpl. split; [|split; [|done]].
  - intros u [= <-]. left. split; reflexivity.
  - intros u [= <-]. left. split; vm_compute; reflexivity.
Defined.

Lemma run_app st es1 es2 : run st (es1 ++ es2) = run (run st es1) es2.
Proof. unfold run. apply fold_left_app. Qed.

Lemma disciplined_app st es1 es2 :
  disciplined st es1 ->
  disciplined (run st es1) es2 ->
  disciplined st (es1 ++ es2).
Proof.
  revert st. induction es1 as [|e es1 IH]; intros st; [done|].
  simpl. intros [Hf Hd] H2. split; [done|]. by apply IH.
Qed.

Lemma disciplined_disconnections st sids : disciplined st (disconnections sids).
Proof. revert st. induction sids as [|s sids IH]; intros st; simpl; auto. Qed.

Lemma disciplined_registrations st pairs :
  NoDup (map fst pairs) ->
  NoDup (map snd pairs) ->
  (forall p, p ∈ pairs ->
     users_by_sid st !! fst p = None /\ users_by_uuid st !! snd p = None) ->
  disciplined st (registrations pairs).
Proof.
  revert st. induction pairs as [|[sid u] pairs IH]; intros st; [done|].
  simpl. intros [Hsid Hsids]%NoDup_cons [Hu Hus]%NoDup_cons Hfree. split.
  - intros u' [= <-]. left. apply (Hfree (sid, u)). by left.
  - apply IH; [done..|]. intros [sid' u'] Hin.
    assert (sid' <> sid).
    { intros ->. apply Hsid. apply list_elem_of_fmap. by exists (sid, u'). }
    assert (u' <> u).
    { intros ->. apply Hu. apply list_elem_of_fmap. by exists (sid', u). }
    destruct (Hfree (sid', u')) as [H1 H2]; [by right|]. simpl in *.
    destruct (register_state_uuid sid (register_payload (VStr u)) st)
      as [-> | (u0 & [= <-] & _ & ->)]; [done|].
    simpl. by rewrite !lookup_insert_ne.
Qed.

Lemma registrations_by_sid st pairs sid u :
  users_by_sid (run st (registrations pairs)) !! sid = Some u ->
  users_by_sid st !! sid = Some u \/ sid ∈ map fst pairs.
Proof.
  revert st. induction pairs as [|[sid' u'] pairs IH]; intros st; [by left|].
  simpl. intros [H | H]%IH; [|right; by right].
  destruct (decide (sid = sid')) as [->|Hne]; [right; by left|].
  left.
  pose proof (step_other_sid st (ERegister sid' (register_payload (VStr u'))) sid)
    as Hstep.
  simpl in Hstep. rewrite Hstep in H; [done|]. congruence.
Qed.

Lemma disconnections_by_sid st sids sid u :
  users_by_sid (run st (disconnections sids)) !! sid = Some u ->
  users_by_sid st !! sid = Some u /\ sid ∉ sids.
Proof.
  revert st. induction sids as [|s sids IH]; intros st.
  - simpl. intros H. split; [done|]. by apply not_elem_of_nil.
  - simpl. intros [H Hnotin]%IH. rewrite disconnect_state in H. simpl in H.
    apply lookup_delete_Some in H as [Hne H]. split; [done|].
    apply not_elem_of_cons. done.
Qed.

(** X17: when connections with distinct handles register distinct uuids
    and every one of them then disconnects, in any order, the registry is
    empty again: no entry is left in either dictionary. *)
Theorem registrations_then_disconnections_empty pairs sids :
  NoDup (map fst pairs) ->
  NoDup (map snd pairs) ->
  (forall sid, sid ∈ map fst pairs -> sid ∈ sids) ->
  run empty_registry (registrations pairs ++ disconnections sids)
  = empty_registry.
Proof.
  intros Hsids Hus Hall.
  assert (Hbij : registry_bijection
                   (run empty_registry (registrations pairs ++ disconnections sids))).
  { apply disciplined_bijection.
    - apply reachable_identities_valid. constructor.
    - intros conn identity. simpl. by rewrite !lookup_empty.
    - apply disciplined_app; [|apply disciplined_disconnections].
      apply disciplined_registrations; [done..|].
      intros p _. simpl. by rewrite !lookup_empty. }
  assert (Hsid : users_by_sid
                   (run empty_registry (registrations pairs ++ disconnections sids))
                 = ∅).
  { apply map_empty. intros sid.
    destruct (users_by_sid _ !! sid) as [u|] eqn:E; [|done]. exfalso.
    rewrite run_app in E. apply disconnections_by_sid in E as [E Hnotin].
    apply registrations_by_sid in E as [E | E].
    - simpl in E. by rewrite lookup_empty in E.
    - by apply Hnotin, Hall. }
  assert (Huuid : users_by_uuid
                    (run empty_registry (registrations pairs ++ disconnections sids))
                  = ∅).
  { apply map_empty. intros u.
    destruct (users_by_uuid _ !! u) as [sid|] eqn:E; [|done]. exfalso.
    apply Hbij in E. rewrite Hsid in E. by rewrite lookup_empty in E. }
  destruct (run _ _) as [m1 m2]. simpl in *. by subst.
Qed.

Lemma registrations_then_disconnections_empty_witness :
  run empty_registry
    (registrations (("A", uuid_1) :: ("B", uuid_2) :: nil)
     ++ disconnections ("B" :: "A" :: nil))
  = empty_registry.
Proof.
  apply (registrations_then_disconnections_empty
           (("A", uuid_1) :: ("B", uuid_2) :: nil) ("B" :: "A" :: nil)).
  - simpl. apply NoDup_cons. split; [|apply NoDup_singleton].
    intros H%list_elem_of_singleton. discriminate.
  - simpl. apply NoDup_cons. split; [|apply NoDup_singleton].
    intros H%list_elem_of_singleton. discriminate.
  - simpl. intros sid [-> | [-> | []%elem_of_nil]%elem_of_cons]%elem_of_cons.
    + right. left.
    + left.
Defined.

(** X18: once a registered connection has disconnected, a message that a
    registered sender addresses to its uuid is answered with "Peer <uuid>
    is not online", also when another connection had registered the same
    uuid in between. *)
Theorem message_after_disconnect st A B u kvs text from_uuid :
  reachable st ->
  users_by_sid st !! A = Some u ->
  lookup_identity_of (state_after (disconnect A) st) B = Identity from_uuid ->
  Py.assoc "to_uuid" kvs = Some (VStr u) ->
  Py.assoc "text" kvs = Some text ->
  message B (VDict kvs) (state_after (disconnect A) st)
  = (Ok tt, state_after (disconnect A) st,
     Emit "error" (message_dict ("Peer " +:+ u +:+ " is not online")) B :: nil).
Proof.
  intros Hreach HA Hfrom Hto Htext.
  apply (message_run_offline _ _ _ _ _ _ Hto Htext Hfrom).
  pose proof (reachable_identity_truthy _ _ _ Hreach HA) as Ht.
  rewrite disconnect_state, HA. destruct u as [|c r]; [done|].
  unfold lookup_connection_of. simpl. by rewrite lookup_delete_eq.
Qed.

Lemma message_after_disconnect_witness :
  message "B" (message_payload (VStr uuid_1) (VStr "hi"))
    (state_after (disconnect "A") (run empty_registry displaced_run))
  = (Ok tt, state_after (disconnect "A") (run empty_registry displaced_run),
     Emit "error" (message_dict ("Peer " +:+ uuid_1 +:+ " is not online")) "B"
     :: nil).
Proof.
  apply (message_after_disconnect (run empty_registry displaced_run)
           "A" "B" uuid_1 _ (VStr "hi") uuid_1).
  - apply reachable_run. constructor.
  - vm_compute. reflexivity.
  - vm_compute. reflexivity.
  - reflexivity.
  - reflexivity.
Defined.

(** * The entry point and the console client *)

(** X19: the uuid that the entry point generates when [my_uuid] is not
    given is never used: without a third argument there is no fourth
    either, and the client mode ends with the usage text.  What the
    entry point does depends on [sys.argv] alone. *)
Theorem main_generated_uuid_unused argv uuid4 uuid4' :
  Console.main argv uuid4 = Console.main argv uuid4'.
Proof.
  unfold Console.main.
  destruct argv as [|a0 [|a1 [|a2 [|a3 rest]]]]; reflexivity.
Qed.

(** X20: the entry point starts the client exactly when [sys.argv] is the
    program name, "--client", a uuid and a non-empty peer uuid, followed
    by anything; the server address is the fifth argument when there is one,
    and http://localhost:8000 otherwise. *)
Theorem main_starts_client argv uuid4 my_uuid peer_uuid url :
  Console.main argv uuid4 = Console.Client my_uuid peer_uuid url <->
  exists prog rest,
    argv = prog :: "--client" :: my_uuid :: peer_uuid :: rest /\
    peer_uuid <> EmptyString /\
    url = match rest with a4 :: _ => a4 | nil => "http://localhost:8000" end.
Proof.
  unfold Console.main. split.
  - destruct argv as [|a0 [|a1 [|a2 [|a3 rest]]]]; simpl; try done.
    + destruct (String.eqb a1 "--client"); done.
    + destruct (String.eqb a1 "--client"); done.
    + destruct (String.eqb_spec a1 "--client") as [->|]; [|done].
      destruct a3 as [|c r]; [done|]. simpl.
      intros [= <- <- <-]. exists a0, rest. split; [done|]. split; [done|].
      by destruct rest.
  - intros (prog & rest & -> & Hpeer & ->). simpl.
    destruct peer_uuid as [|c r]; [done|]. simpl. by destruct rest.
Qed.

Lemma main_starts_client_witness :
  Console.main ("main.py" :: "--client" :: uuid_1 :: uuid_2 :: nil) uuid_lower
  = Console.Client uuid_1 uuid_2 "http://localhost:8000".
Proof.
  apply (main_starts_client _ uuid_lower uuid_1 uuid_2 "http://localhost:8000").
  exists "main.py", nil. split; [reflexivity|]. split; [discriminate | reflexivity].
Defined.

(** X21: with "--client" as first argument and no peer uuid, or an empty
    one, the entry point prints the usage text and exits with status 1;
    with any other first argument, or none, it serves on 0.0.0.0:8000,
    whatever follows. *)
Theorem main_usage_or_server argv uuid4 :
  (argv !! 1%nat = Some "--client" ->
   argv !! 3%nat = None \/ argv !! 3%nat = Some EmptyString ->
   Console.main argv uuid4
   = Console.Usage "Usage: python main.py --client <my_uuid> <peer_uuid> [url]" 1) /\
  (argv !! 1%nat <> Some "--client" ->
   Console.main argv uuid4 = Console.Serve "0.0.0.0" 8000).
Proof.
  unfold Console.main. split.
  - destruct argv as [|a0 [|a1 [|a2 [|a3 rest]]]]; simpl; try done.
    + by intros [= ->].
    + by intros [= ->].
    + intros [= ->] [? | [= ->]]; done.
  - destruct argv as [|a0 [|a1 rest]]; simpl; try done.
    destruct (String.eqb_spec a1 "--client") as [->|]; done.
Qed.

Lemma main_usage_or_server_witness :
  Console.main ("main.py" :: "--client" :: uuid_1 :: nil) uuid_lower
  = Console.Usage "Usage: python main.py --client <my_uuid> <peer_uuid> [url]" 1 /\
  Console.main ("main.py" :: "--server" :: "--client" :: nil) uuid_lower
  = Console.Serve "0.0.0.0" 8000.
Proof.
  split.
  - apply (main_usage_or_server ("main.py" :: "--client" :: uuid_1 :: nil));
      [reflexivity | by left].
  - apply (main_usage_or_server ("main.py" :: "--server" :: "--client" :: nil)).
    discriminate.
Defined.

(** ** The input loop of the client *)

Local Open Scope list_scope.

Lemma feed_until_blank pre blank rest :
  Forall (fun raw => Py.str_truthy (Console.strip raw) = true) pre ->
  Py.str_truthy (Console.strip blank) = false ->
  Console.feed (pre ++ blank :: rest)
  = (map (fun raw => Some (Console.strip raw)) pre ++ None :: nil,
     Console.FeedReturned).
Proof.
  intros Hpre Hblank. induction Hpre as [|raw pre Hraw _ IH]; simpl.
  - by rewrite Hblank.
  - by rewrite Hraw, IH.
Qed.

Lemma send_input_until_None peer texts rest :
  Console.send_input peer (map Some texts ++ None :: rest)
  = map (fun text =>
           Console.CEmit "message"
             (VDict (("to_uuid", VStr peer) :: ("text", VStr text) :: nil)))
        texts.
Proof. induction texts as [|t texts IH]; simpl; [done|]. by rewrite IH. Qed.

(** X22: on an input whose first blank line (empty, or white space only)
    comes after the lines [pre], the client connects, registers
    [my_uuid], sends one message to [peer_uuid] per line of [pre], with
    the stripped line as text and in the order of the input, and
    disconnects; the lines after the blank one are not read. *)
Theorem run_client_until_blank my_uuid peer_uuid url pre blank rest :
  Forall (fun raw => Console.strip raw <> EmptyString) pre ->
  Console.strip blank = EmptyString ->
  Console.run_client my_uuid peer_uuid url (pre ++ blank :: rest)
  = Some (Console.CConnect url
          :: Console.CEmit "register" (VDict (("uuid", VStr my_uuid) :: nil))
          :: map (fun raw =>
                    Console.CEmit "message"
                      (VDict (("to_uuid", VStr peer_uuid)
                              :: ("text", VStr (Console.strip raw)) :: nil)))
                 pre
          ++ Console.CDisconnect :: nil).
Proof.
  intros Hpre Hblank. unfold Console.run_client.
  rewrite (feed_until_blank pre blank rest).
  - rewrite <- (map_map Console.strip Some), send_input_until_None.
    by rewrite map_map.
  - eapply Forall_impl; [exact Hpre|]. intros raw. simpl.
    by destruct (Console.strip raw).
  - by rewrite Hblank.
Qed.

Lemma run_client_until_blank_witness :
  Console.run_client uuid_1 uuid_2 "http://localhost:8000"
    ("  hello " :: "   " :: "never read" :: nil)
  = Some (Console.CConnect "http://localhost:8000"
          :: Console.CEmit "register" (VDict (("uuid", VStr uuid_1) :: nil))
          :: Console.CEmit "message"
               (VDict (("to_uuid", VStr uuid_2) :: ("text", VStr "hello") :: nil))
          :: Console.CDisconnect :: nil).
Proof.
  apply (run_client_until_blank uuid_1 uuid_2 "http://localhost:8000"
           ("  hello " :: nil) "   " ("never read" :: nil)).
  - repeat constructor. vm_compute. discriminate.
  - vm_compute. reflexivity.
Defined.










(** X24: the reader thread returns only after a blank line.  On an input
    without one it puts every stripped line on the queue and then dies
    with EOFError from [input], so the client never reaches its
    disconnect. *)
Theorem feed_without_blank_line stdin my_uuid peer_uuid url :
  Forall (fun raw => Console.strip raw <> EmptyString) stdin ->
  Console.feed stdin
  = (map (fun raw => Some (Console.strip raw)) stdin, Console.FeedEOFError) /\
  Console.run_client my_uuid peer_uuid url stdin = None.
Proof.
  intros Hall.
  assert (H : Console.feed stdin
              = (map (fun raw => Some (Console.strip raw)) stdin,
                 Console.FeedEOFError)).
  { induction Hall as [|raw rest Hraw _ IH]; simpl; [done|].
    rewrite IH. by destruct (Console.strip raw). }
  split; [done|]. unfold Console.run_client. by rewrite H.
Qed.

Lemma feed_without_blank_line_witness :
  Console.feed ("hello" :: " world" :: nil)
  = (Some "hello" :: Some "world" :: nil, Console.FeedEOFError) /\
  Console.run_client uuid_1 uuid_2 "http://localhost:8000"
    ("hello" :: " world" :: nil) = None.
Proof.
  apply (feed_without_blank_line ("hello" :: " world" :: nil)).
  repeat constructor; vm_compute; discriminate.
Defined.

(** ** A client session on the server *)

Lemma serve_acc st es acc :
  fold_left
    (fun acc e =>
       let r := handle e (fst acc) in (snd (fst r), snd acc ++ snd r))
    es (st, acc)
  = (fst (serve st es), acc ++ snd (serve st es)).
Proof.
  revert st acc. induction es as [|e es IH]; intros st acc.
  - simpl. by rewrite app_nil_r.
  - cbn [fold_left fst snd]. rewrite IH.
    assert (Hs : serve st (e :: es)
                 = (fst (serve (snd (fst (handle e st))) es),
                    snd (handle e st) ++ snd (serve (snd (fst (handle e st))) es))).
    { unfold serve at 1. cbn [fold_left fst snd app]. apply IH. }
    rewrite Hs. simpl. by rewrite app_assoc.
Qed.

Lemma serve_cons st e es :
  serve st (e :: es)
  = (fst (serve (state_after (handle e) st) es),
     emitted (handle e) st ++ snd (serve (state_after (handle e) st) es)).
Proof. unfold serve at 1. cbn [fold_left fst snd app]. apply serve_acc. Qed.

Lemma serve_state st es : fst (serve st es) = run st es.
Proof.
  revert st. induction es as [|e es IH]; intros st; [done|].
  rewrite serve_cons. simpl. apply IH.
Qed.

Lemma client_events_messages sid peer texts rest :
  client_events sid
    (map (fun text =>
            Console.CEmit "message"
              (VDict (("to_uuid", VStr peer) :: ("text", VStr text) :: nil)))
         texts ++ rest)
  = map (fun text => EMessage sid (message_payload (VStr peer) (VStr text))) texts
    ++ client_events sid rest.
Proof.
  unfold client_events. induction texts as [|t texts IH]; [done|].
  simpl. by rewrite IH.
Qed.

Lemma run_messages st sid peer texts :
  run st (map (fun text => EMessage sid (message_payload (VStr peer) (VStr text)))
              texts) = st.
Proof.
  induction texts as [|t texts IH]; [done|]. simpl. by rewrite message_state.
Qed.

(** The actions of a client run that returns. *)
Lemma run_client_actions my_uuid peer_uuid url stdin acts :
  Console.run_client my_uuid peer_uuid url stdin = Some acts ->
  exists texts,
    acts = Console.CConnect url
           :: Console.CEmit "register" (VDict (("uuid", VStr my_uuid) :: nil))
           :: map (fun text =>
                     Console.CEmit "message"
                       (VDict (("to_uuid", VStr peer_uuid)
                               :: ("text", VStr text) :: nil))) texts
           ++ Console.CDisconnect :: nil.
Proof.
  unfold Console.run_client.
  destruct (Console.feed stdin) as [queue [|]]; [|done]. intros [= <-].
  assert (H : exists texts,
            Console.send_input peer_uuid queue
            = map (fun text =>
                     Console.CEmit "message"
                       (VDict (("to_uuid", VStr peer_uuid)
                               :: ("text", VStr text) :: nil))) texts).
  { induction queue as [|[t|] queue [texts IH]]; simpl.
    - by exists nil.
    - exists (t :: texts). simpl. by rewrite IH.
    - by exists nil. }
  destruct H as [texts ->]. by exists texts.
Qed.

Lemma register_disconnect_round_trip_aux st sid u :
  is_valid_uuid u = true ->
  users_by_sid st !! sid = None ->
  users_by_uuid st !! u = None ->
  state_after (disconnect sid)
    (state_after (register sid (register_payload (VStr u))) st) = st.
Proof.
  intros Hv Hsid Huuid.
  unfold register_payload.
  rewrite (register_is_registry_register sid (("uuid", VStr u) :: nil) u st
             eq_refl Hv), registry_register_maps.
  rewrite disconnect_state. simpl. rewrite lookup_insert_eq.
  pose proof (valid_uuid_truthy _ Hv) as Ht. destruct u as [|c r]; [done|].
  rewrite !delete_insert_eq, !delete_id by done. apply registry_eta.
Qed.

(** X25: a whole client session, connect, register, any number of
    messages, disconnect, of a connection that had no entry and under a
    uuid that had no entry, leaves the registry of the server exactly as
    it found it, whether or not the uuid was valid. *)
Theorem client_session_round_trip st sid my_uuid peer_uuid url stdin acts :
  users_by_sid st !! sid = None ->
  users_by_uuid st !! my_uuid = None ->
  Console.run_client my_uuid peer_uuid url stdin = Some acts ->
  run st (client_events sid acts) = st.
Proof.
  intros Hsid Huuid (texts & ->)%run_client_actions.
  change (client_events sid (?a :: ?b :: ?l))
    with (EConnect sid :: ERegister sid (register_payload (VStr my_uuid))
          :: client_events sid l).
  rewrite client_events_messages.
  change (client_events sid (Console.CDisconnect :: nil))
    with (EDisconnect sid :: nil).
  match goal with
  | |- run st (_ :: _ :: ?l) = _ =>
      change (run (state_after (register sid (register_payload (VStr my_uuid))) st) l
              = st)
  end.
  rewrite run_app, run_messages.
  change (state_after (disconnect sid)
            (state_after (register sid (register_payload (VStr my_uuid))) st) = st).
  destruct (is_valid_uuid my_uuid) eqn:Hv.
  - apply (register_disconnect_round_trip_aux st sid my_uuid Hv Hsid Huuid).
  - unfold state_after at 2. unfold register_payload.
    rewrite (register_invalid_str sid st (("uuid", VStr my_uuid) :: nil) my_uuid
               eq_refl Hv). simpl.
    unfold state_after. rewrite disconnect_run, Hsid, delete_id by done.
    simpl. apply registry_eta.
Qed.

Lemma client_session_round_trip_witness :
  run (run empty_registry two_peers_run)
    (client_events "C"
       (Console.CConnect "http://localhost:8000"
        :: Console.CEmit "register" (VDict (("uuid", VStr uuid_lower) :: nil))
        :: Console.CEmit "message"
             (VDict (("to_uuid", VStr uuid_2) :: ("text", VStr "hello") :: nil))
        :: Console.CDisconnect :: nil))
  = run empty_registry two_peers_run.
Proof.
  apply (client_session_round_trip (run empty_registry two_peers_run) "C"
           uuid_lower uuid_2 "http://localhost:8000"
           ("  hello " :: "   " :: nil));
    vm_compute; reflexivity.
Defined.

Lemma serve_app st es1 es2 :
  serve st (es1 ++ es2)
  = (fst (serve (run st es1) es2),
     snd (serve st es1) ++ snd (serve (run st es1) es2)).
Proof.
  revert st. induction es1 as [|e es1 IH]; intros st.
  - simpl. by destruct (serve st es2).
  - change ((e :: es1) ++ es2) with (e :: (es1 ++ es2)).
    rewrite !serve_cons, IH. simpl. by rewrite app_assoc.
Qed.

Lemma serve_messages_unregistered st sid peer texts :
  lookup_identity_of st sid = NotFound ->
  serve st (map (fun text => EMessage sid (message_payload (VStr peer) (VStr text)))
                texts)
  = (st,
     repeat (Emit "error" (message_dict "Call register with your uuid first") sid)
            (List.length texts)).
Proof.
  intros Hsid. induction texts as [|t texts IH]; [done|].
  cbn [map]. rewrite serve_cons. cbn [handle]. unfold emitted, state_after.
  change (message_payload (VStr peer) (VStr t))
    with (VDict (("to_uuid", VStr peer) :: ("text", VStr t) :: nil)).
  rewrite (message_run_unregistered sid
             (("to_uuid", VStr peer) :: ("text", VStr t) :: nil)
             (VStr peer) (VStr t) st eq_refl eq_refl Hsid).
  cbn [fst snd]. by rewrite IH.
Qed.

(** X26: a client that registers a text that is not a valid uuid, on a
    connection without an entry, is told "Invalid uuid" once and then
    "Call register with your uuid first" for every line it sends: none
    of its messages is delivered, to anyone. *)
Theorem invalid_uuid_session_replies st sid my_uuid peer_uuid url stdin acts :
  is_valid_uuid my_uuid = false ->
  users_by_sid st !! sid = None ->
  Console.run_client my_uuid peer_uuid url stdin = Some acts ->
  snd (serve st (client_events sid acts))
  = Emit "error" (message_dict "Invalid uuid") sid
    :: repeat (Emit "error" (message_dict "Call register with your uuid first") sid)
              (List.length acts - 3).
Proof.
  intros Hv Hsid (texts & ->)%run_client_actions.
  change (client_events sid (?a :: ?b :: ?l))
    with (EConnect sid :: ERegister sid (register_payload (VStr my_uuid))
          :: client_events sid l).
  rewrite client_events_messages.
  change (client_events sid (Console.CDisconnect :: nil))
    with (EDisconnect sid :: nil).
  rewrite !serve_cons. cbn [handle snd].
  change (state_after (connect sid) st) with st.
  change (emitted (connect sid) st) with (@nil emission). cbn [app].
  assert (Hreg : register sid (register_payload (VStr my_uuid)) st
                 = (Ok tt, st,
                    Emit "error" (message_dict "Invalid uuid") sid :: nil)).
  { unfold register_payload.
    apply (register_invalid_str sid st (("uuid", VStr my_uuid) :: nil) my_uuid
             eq_refl Hv). }
  unfold emitted at 1, state_after. rewrite Hreg. cbn [fst snd app]. f_equal.
  rewrite serve_app, serve_messages_unregistered
    by (unfold lookup_identity_of; by rewrite Hsid).
  cbn [snd]. rewrite run_messages, serve_cons. cbn [handle snd].
  unfold emitted. rewrite disconnect_run. cbn [snd app]. rewrite app_nil_r.
  f_equal. cbn [List.length]. rewrite length_app, length_map. simpl. lia.
Qed.

Lemma invalid_uuid_session_replies_witness :
  snd (serve empty_registry
         (client_events "A"
            (Console.CConnect "http://localhost:8000"
             :: Console.CEmit "register" (VDict (("uuid", VStr "uuid-A") :: nil))
             :: Console.CEmit "message"
                  (VDict (("to_uuid", VStr "uuid-B") :: ("text", VStr "hi") :: nil))
             :: Console.CDisconnect :: nil)))
  = Emit "error" (message_dict "Invalid uuid") "A"
    :: Emit "error" (message_dict "Call register with your uuid first") "A"
    :: nil.
Proof.
  apply (invalid_uuid_session_replies empty_registry "A" "uuid-A" "uuid-B"
           "http://localhost:8000" ("hi" :: EmptyString :: nil));
    vm_compute; reflexivity.
Defined.

(** ** One uuid under two spellings *)

(** X27: the registry keys are the texts, not the parsed uuids: after a
    connection registered a canonical text and another one the same text
    in braces, both registrations stand, each spelling resolving to its
    own connection, although [uuid.UUID] gives the same value for
    both. *)
Theorem two_spellings_both_registered st A B u :
  Py.str_truthy A = true ->
  Py.str_truthy B = true ->
  canonical_text u = true ->
  Py.UUID (VStr (in_braces u)) = Py.UUID (VStr u) /\
  lookup_connection_of
    (run st (ERegister A (register_payload (VStr u))
             :: ERegister B (register_payload (VStr (in_braces u))) :: nil)) u
  = Connection A /\
  lookup_connection_of
    (run st (ERegister A (register_payload (VStr u))
             :: ERegister B (register_payload (VStr (in_braces u))) :: nil))
    (in_braces u)
  = Connection B.
Proof.
  intros HA HB Hc.
  destruct (spellings_same_value _ Hc) as (_ & _ & Hb & _).
  destruct (spellings_differ _ Hc) as (_ & Hne & _).
  pose proof (canonical_valid _ Hc) as Hv.
  assert (Hvb : is_valid_uuid (in_braces u) = true).
  { unfold is_valid_uuid in *. by rewrite Hb. }
  split; [done|]. cbn [run fold_left handle]. unfold register_payload.
  rewrite (register_is_registry_register A (("uuid", VStr u) :: nil) u st eq_refl Hv).
  rewrite (register_is_registry_register B (("uuid", VStr (in_braces u)) :: nil)
             (in_braces u) _ eq_refl Hvb).
  rewrite !registry_register_maps. unfold lookup_connection_of. simpl.
  rewrite lookup_insert_ne, !lookup_insert_eq by done.
  destruct A; [done|]. destruct B; done.
Qed.

Lemma two_spellings_both_registered_witness :
  Py.UUID (VStr (in_braces uuid_1)) = Py.UUID (VStr uuid_1) /\
  lookup_connection_of
    (run empty_registry
       (ERegister "A" (register_payload (VStr uuid_1))
        :: ERegister "B" (register_payload (VStr (in_braces uuid_1))) :: nil))
    uuid_1
  = Connection "A" /\
  lookup_connection_of
    (run empty_registry
       (ERegister "A" (register_payload (VStr uuid_1))
        :: ERegister "B" (register_payload (VStr (in_braces uuid_1))) :: nil))
    (in_braces uuid_1)
  = Connection "B".
Proof.
  apply (two_spellings_both_registered empty_registry "A" "B" uuid_1);
    vm_compute; reflexivity.
Defined.
